(** * Distributed synchronous data collector: a shallow embedding

    Model of [torchrl/collectors/distributed/sync.py]: the worker entry
    point [_distributed_init_collection_node] and the coordinator class
    [DistributedSyncDataCollector].

    Python integers are [Z] ([//] and [%] are floor division and floor
    modulo, as [Z.div] and [Z.modulo], and raise [ZeroDivisionError] on a
    zero divisor).  Exceptions are values of [exn]; code that raises or
    mutates process-wide state lives in a state-and-error monad.  Every
    process is described by the sequence of events it performs in program
    order. *)

From Stdlib Require Import ZArith Lia.
From stdpp Require Import base strings list list_numbers gmap.

Open Scope Z_scope.

(** ** Python values, exceptions and the state-and-error monad *)

Module Py.

Inductive pyval :=
| PInt (n : Z)
| PStr (s : string)
| PBool (b : bool).

(** The three [RuntimeError] messages of the module. *)
Inductive runtime_msg :=
| CannotDispatchTotal (total_frames num_workers : Z)
| CannotDispatchBatch (frames_per_batch num_workers : Z)
| SingleEnvOnly.

Inductive exn :=
| RuntimeError (msg : runtime_msg)
| ImportError (msg : string)
| ZeroDivisionError
| NotImplementedError
| UnboundLocalError (name : string)
| TypeError
| IndexError
| AttributeError (name : string)
| RendezvousTimeout.

(** The spec's taxonomy: indivisible frame counts, a single-environment
    collector asked to fan out, a missing optional dependency. *)
Definition is_configuration_error (e : exn) : bool :=
  match e with
  | RuntimeError _ | ImportError _ => true
  | _ => false
  end.

Definition M (S A : Type) : Type := S -> (exn + A) * S.

Definition ret {S A} (a : A) : M S A := fun s => (inr a, s).
Definition raise {S A} (e : exn) : M S A := fun s => (inl e, s).
Definition bind {S A B} (m : M S A) (k : A -> M S B) : M S B :=
  fun s => match m s with
           | (inl e, s') => (inl e, s')
           | (inr a, s') => k a s'
           end.
Definition get {S} : M S S := fun s => (inr s, s).
Definition modify {S} (f : S -> S) : M S unit := fun s => (inr tt, f s).

(** [for x in xs: body] with an accumulator threaded through. *)
Fixpoint for_ {S A X} (xs : list X) (body : X -> A -> M S A) (a : A) : M S A :=
  match xs with
  | [] => ret a
  | x :: xs' => bind (body x a) (for_ xs' body)
  end.

(** [a // b] and [a % b]. *)
Definition floordiv {S} (a b : Z) : M S Z :=
  if b =? 0 then raise ZeroDivisionError else ret (a `div` b).
Definition pymod {S} (a b : Z) : M S Z :=
  if b =? 0 then raise ZeroDivisionError else ret (a `mod` b).

(** A computation that can only fail with an exception in [P]. *)
Definition raises_only {S A} (P : exn -> Prop) (m : M S A) : Prop :=
  forall s e s', m s = (inl e, s') -> P e.


End Py.

Import Py.

Notation "'let*' x ':=' m 'in' k" := (bind m (fun x => k))
  (at level 10, x name, m at level 100, k at level 200).

(** ** Tensor dictionaries

    A [TensorDict] is kept as its layout (batch size, field names with the
    shape of each field, lock flag, device) together with a description
    [D] of where its contents come from.  A rollout batch has one origin; a
    stacked buffer has one origin per index of its leading dimension. *)

Module TD.

Inductive payload :=
| FromProbe
| FromWorker (rank round : Z).

Record TensorDict (D : Type) := mkTD {
  batch_size : list Z;
  fields : gmap string (list Z);
  is_locked : bool;
  device : string;
  data : D
}.
Arguments mkTD {D}.
Arguments batch_size {D}.
Arguments fields {D}.
Arguments is_locked {D}.
Arguments device {D}.
Arguments data {D}.

Definition prod_dims (shape : list Z) : Z := foldr Z.mul 1 shape.

(** [td.numel()], which tensordict defines as
    [max(1, td.batch_size.numel())]. *)
Definition numel {D} (td : TensorDict D) : Z :=
  Z.max 1 (prod_dims (batch_size td)).

(** [td.expand((n, *td.shape)).to_tensordict()]: a new leading dimension
    of size [n] in front of the batch size and of every field, each of
    the [n] slices a copy of [td]. *)
Definition expand {D} (n : Z) (td : TensorDict D) : TensorDict (list D) :=
  {| batch_size := n :: batch_size td;
     fields := (cons n) <$> fields td;
     is_locked := false;
     device := device td;
     data := replicate (Z.to_nat n) (data td) |}.

Definition to {D} (dev : string) (td : TensorDict D) : TensorDict D :=
  {| batch_size := batch_size td; fields := fields td;
     is_locked := is_locked td; device := dev; data := data td |}.

Definition lock_ {D} (td : TensorDict D) : TensorDict D :=
  {| batch_size := batch_size td; fields := fields td;
     is_locked := true; device := device td; data := data td |}.

(** [td.clone()]: same layout and contents, never locked. *)
Definition clone {D} (td : TensorDict D) : TensorDict D :=
  {| batch_size := batch_size td; fields := fields td;
     is_locked := false; device := device td; data := data td |}.

(** [td.unbind(0)] gives one view per index of the leading dimension; a
    view shares its storage with [td] and is therefore kept as its
    index.  [view td i] reads through the view. *)
Definition unbind0 {D} (td : TensorDict (list D)) : list nat :=
  seq 0 (length (data td)).

Definition view {D} (td : TensorDict (list D)) (i : nat) : option (TensorDict D) :=
  d ← data td !! i;
  Some {| batch_size := tail (batch_size td);
          fields := tail <$> fields td;
          is_locked := is_locked td;
          device := device td;
          data := d |}.

(** [view.irecv(src)] followed by waiting on its transfers: the tensors
    of the view are overwritten in place with what [src] sent; nothing
    is added, removed or reshaped. *)
Definition irecv_into {D} (i : nat) (d : D) (td : TensorDict (list D))
  : TensorDict (list D) :=
  {| batch_size := batch_size td; fields := fields td;
     is_locked := is_locked td; device := device td;
     data := <[i := d]> (data td) |}.


End TD.

Import TD.

(** ** Collaborators: collector classes, environments, policies *)

Module Collectors.

(** The collector classes a node can run, and classes derived from them. *)
Inductive collector_cls :=
| SyncDataCollector
| MultiSyncDataCollector
| MultiaSyncDataCollector
| Derived (base : collector_cls).

Fixpoint is_sync_subclass (c : collector_cls) : bool :=
  match c with
  | SyncDataCollector => true
  | Derived base => is_sync_subclass base
  | _ => false
  end.

(** The [collector_class] argument: a class, or a string naming one. *)
Inductive class_arg :=
| ClsName (s : string)
| Cls (c : collector_cls).

(** [issubclass(collector_class, SyncDataCollector)]; a string is not a
    class. *)
Definition issubclass_SyncDataCollector {S} (c : class_arg) : M S bool :=
  match c with
  | Cls c => ret (is_sync_subclass c)
  | ClsName _ => raise TypeError
  end.

(** An environment constructor: the per-frame fields its environment
    produces, and whether it is an [EnvBase] or [EnvCreator] instance. *)
Record env_ctor := {
  env_id : string;
  env_fields : gmap string (list Z);
  is_env_instance : bool
}.

(** What is shipped to a node: the constructor itself, or a
    [CloudpickleWrapper] around it. *)
Inductive env_make :=
| Bare (e : env_ctor)
| CloudpickleWrapper (e : env_ctor).

Definition unwrap (e : env_make) : env_ctor :=
  match e with Bare e | CloudpickleWrapper e => e end.

(** A policy: whether it is an [nn.Module], its named parameters with the
    device each lives on, and the fields it writes. *)
Record policy := {
  is_nn_Module : bool;
  named_parameters : list (string * string);
  policy_fields : gmap string (list Z)
}.

(** [TensorDict(dict(policy.named_parameters()), [])] for a module and
    [TensorDict({}, [])] otherwise, kept as the list of its keys. *)
Definition weights_of (p : policy) : list string :=
  if is_nn_Module p then (named_parameters p).*1 else [].

Definition all_on_cpu (p : policy) : bool :=
  forallb (fun kv => String.eqb kv.2 "cpu") (named_parameters p).

(** Modelled from the spec: the single and multi rollout collectors are
    not among the sources.  A collector is a lazy sequence of batches of
    [frames_per_batch] frames each, bounded by its frame budget: it stops
    as soon as [total_frames] frames have been produced.  The list holds
    the number of frames of each batch; [frames_per_batch] is at least 1
    in every use the theorems make of it. *)
Definition collector_batches (frames_per_batch total_frames : Z) : list Z :=
  if (0 <? frames_per_batch) && (0 <? total_frames)
  then replicate (Z.to_nat ((total_frames + frames_per_batch - 1) `div` frames_per_batch))
                 frames_per_batch
  else [].

(** Modelled from the spec: a batch is a mapping from field name to a
    tensor whose leading dimension is the number of frames in the batch;
    the fields are those of the environment and of the policy. *)
Definition rollout_batch (e : env_ctor) (p : policy) (frames : Z)
  : TensorDict payload :=
  {| batch_size := [frames];
     fields := (cons frames) <$> (env_fields e ∪ policy_fields p);
     is_locked := false;
     device := "cpu";
     data := FromProbe |}.

End Collectors.

Import Collectors.

(** ** The worker runtime *)

Module Worker.

Inductive wevent :=
| WEnviron (key : string) (value : string + Z)
| WDeepcopy
| WCreateCollector (c : class_arg) (envs : list env_make)
    (frames_per_batch total_frames : Z) (kwargs : gmap string pyval)
| WInitProcessGroup (rank world_size : Z)
| WIrecv (keys : list string)
| WProduce (i frames : Z)
| WIsend (i : Z)
| WShutdown.

Definition emit (e : wevent) : M (list wevent) unit :=
  modify (fun tr => tr ++ [e]).

(** The positional arguments of [_distributed_init_collection_node]. *)
Record node_args := {
  rank : Z;
  rank0_ip : string;
  tcpport : Z;
  world_size : Z;
  backend : string;
  collector_class : class_arg;
  num_workers : Z;
  env_make_arg : env_make;
  policy_arg : policy;
  frames_per_batch : Z;
  collector_kwargs : gmap string pyval;
  update_interval : Z;
  total_frames : Z
}.

(** The body of [for i, data in enumerate(collector)]: [frames] is the
    accumulator. *)
Definition loop_body (a : node_args) (policy_weights : list string)
    (idata : Z * Z) (frames : Z) : M (list wevent) Z :=
  let '(i, data_numel) := idata in
  let* _ := emit (WProduce i data_numel) in
  let* _ := emit (WIsend i) in
  let frames := frames + data_numel in
  if frames <? total_frames a then
    let* r := pymod (i + 1) (update_interval a) in
    if (r =? 0) && negb (bool_decide (policy_weights = [])) then
      let* _ := emit (WIrecv policy_weights) in ret frames
    else ret frames
  else ret frames.

Definition enumerate {A} (l : list A) : list (Z * A) :=
  zip (seqZ 0 (Z.of_nat (length l))) l.

Definition _distributed_init_collection_node (a : node_args)
  : M (list wevent) unit :=
  let* _ := emit (WEnviron "MASTER_ADDR" (inl (rank0_ip a))) in
  let* _ := emit (WEnviron "MASTER_PORT" (inr (tcpport a))) in
  let* is_sync := issubclass_SyncDataCollector (collector_class a) in
  let* cfg :=
    if negb is_sync then
      ret (replicate (Z.to_nat (num_workers a)) (env_make_arg a), collector_kwargs a)
    else
      let kwargs := <["return_same_td" := PBool true]> (collector_kwargs a) in
      if negb (num_workers a =? 1) then raise (RuntimeError SingleEnvOnly)
      else ret ([env_make_arg a], kwargs) in
  let '(envs, kwargs) := cfg in
  let* policy_weights :=
    if is_nn_Module (policy_arg a) then
      let* _ := (if all_on_cpu (policy_arg a) then emit WDeepcopy else ret tt) in
      ret (weights_of (policy_arg a))
    else ret [] in
  let* _ := emit (WCreateCollector (collector_class a) envs
                    (frames_per_batch a) (total_frames a) kwargs) in
  let collector := collector_batches (frames_per_batch a) (total_frames a) in
  let* _ := emit (WInitProcessGroup (rank a) (world_size a)) in
  let* _ := emit (WIrecv policy_weights) in
  let* _ := for_ (enumerate collector) (loop_body a policy_weights) 0 in
  let* _ := emit WShutdown in
  ret tt.

(** The trace of a node started from scratch, and whether the node gets as
    far as joining the process group. *)
Definition run (a : node_args) : (exn + unit) * list wevent :=
  _distributed_init_collection_node a [].

Definition is_join (e : wevent) : bool :=
  match e with WInitProcessGroup _ _ => true | _ => false end.

Definition joins (a : node_args) : bool := existsb is_join (run a).2.

End Worker.

(** ** The coordinator *)

Module Coordinator.

(** What the coordinator does, in program order. *)
Inductive event :=
| EvEnviron (key : string) (value : string + Z)
| EvExecutor (slurm_kwargs : gmap string pyval)
| EvSubmit (rank : Z)
| EvProcStart (rank : Z)
| EvInitProcessGroup (rank world_size : Z)
| EvProbeCreate (e : env_ctor) (frames_per_batch total_frames : Z)
| EvLock
| EvProbeShutdown
| EvIsend (rank : Z) (keys : list string)
| EvIrecv (i rank : Z)
| EvWait (rank : Z)
| EvYield (round : Z).

Inductive proc_status :=
| Running
| Exited
| Crashed (e : exn).

(** Process-wide and machine-wide state: the log of the coordinator's
    actions, the table of launched worker processes or jobs, by rank,
    and the process group of the coordinator (its size) once the
    rendezvous has completed. *)
Record world := {
  log : list event;
  procs : gmap Z proc_status;
  process_group : option Z
}.

Definition world0 : world := {| log := []; procs := ∅; process_group := None |}.

(** The world after some more events. *)
Definition logged (w : world) (evs : list event) : world :=
  {| log := log w ++ evs; procs := procs w; process_group := process_group w |}.

Definition emit (e : event) : M world unit :=
  modify (fun w => logged w [e]).

Definition set_proc (r : Z) (s : proc_status) : M world unit :=
  modify (fun w => {| log := log w; procs := <[r := s]> (procs w);
                      process_group := process_group w |}).

Definition set_process_group (world_size : Z) : M world unit :=
  modify (fun w => {| log := log w; procs := procs w;
                      process_group := Some world_size |}).

(** What the module and the machine provide: whether [import submitit]
    succeeded, the [TCP_PORT] environment variable, the address of the
    host.  Ports are kept as integers: the code stores the port as a
    string and converts it back with [int(...)] at every use. *)
Record system := {
  _has_submitit : bool;
  environ_TCP_PORT : option Z;
  host_ip : string
}.

Definition MAX_TIME_TO_CONNECT : Z := 1000.

Definition DEFAULT_SLURM_CONF : gmap string pyval :=
  <["timeout_min" := PInt 10]>
  (<["slurm_partition" := PStr "train"]>
  (<["slurm_cpus_per_task" := PInt 32]>
  (<["slurm_gpus_per_node" := PInt 0]> ∅))).

(** [collector_kwargs]: absent, one dictionary, or a list of them. *)
Inductive kwargs_arg :=
| KwNone
| KwDict (d : gmap string pyval)
| KwList (l : list (gmap string pyval)).

(** The arguments of [DistributedSyncDataCollector.__init__]. *)
Module Args.
Record t := {
  create_env_fn : list env_ctor;
  policy : Collectors.policy;
  frames_per_batch : Z;
  total_frames : Z;
  collector_class : class_arg;
  collector_kwargs : kwargs_arg;
  num_workers_per_collector : Z;
  slurm_kwargs : option (gmap string pyval);
  backend : string;
  storing_device : string;
  update_after_each_batch : bool;
  max_weight_update_interval : Z;
  update_interval : Z;
  launcher : string;
  tcp_port : option Z
}.
End Args.

(** A launcher handle: a process ([mp]) or a job ([submitit]). *)
Record job := {
  job_rank : Z;
  job_launcher : string;
  job_args : Worker.node_args
}.

(** The attributes of a [DistributedSyncDataCollector]. *)
Record t := {
  collector_class : class_arg;
  env_constructors : list env_ctor;
  policy : Collectors.policy;
  policy_weights : list string;
  num_workers : Z;
  frames_per_batch : Z;
  storing_device : string;
  update_interval : Z;
  total_frames_per_collector : Z;
  update_after_each_batch : bool;
  max_weight_update_interval : Z;
  launcher : string;
  _batches_since_weight_update : list Z;
  tcp_port : Z;
  _frames_per_batch_corrected : Z;
  num_workers_per_collector : Z;
  total_frames : Z;
  slurm_kwargs : gmap string pyval;
  collector_kwargs : list (gmap string pyval);
  backend : string;
  IPAddr : option string;
  jobs : list job;
  _tensordict_out : option (TensorDict (list payload));
  _single_tds : list nat
}.

Definition set_IPAddr (ip : string) (self : t) : t :=
  {| collector_class := collector_class self; env_constructors := env_constructors self;
     policy := policy self; policy_weights := policy_weights self;
     num_workers := num_workers self; frames_per_batch := frames_per_batch self;
     storing_device := storing_device self; update_interval := update_interval self;
     total_frames_per_collector := total_frames_per_collector self;
     update_after_each_batch := update_after_each_batch self;
     max_weight_update_interval := max_weight_update_interval self;
     launcher := launcher self;
     _batches_since_weight_update := _batches_since_weight_update self;
     tcp_port := tcp_port self;
     _frames_per_batch_corrected := _frames_per_batch_corrected self;
     num_workers_per_collector := num_workers_per_collector self;
     total_frames := total_frames self; slurm_kwargs := slurm_kwargs self;
     collector_kwargs := collector_kwargs self; backend := backend self;
     IPAddr := Some ip; jobs := jobs self;
     _tensordict_out := _tensordict_out self; _single_tds := _single_tds self |}.

Definition set_jobs (js : list job) (self : t) : t :=
  {| collector_class := collector_class self; env_constructors := env_constructors self;
     policy := policy self; policy_weights := policy_weights self;
     num_workers := num_workers self; frames_per_batch := frames_per_batch self;
     storing_device := storing_device self; update_interval := update_interval self;
     total_frames_per_collector := total_frames_per_collector self;
     update_after_each_batch := update_after_each_batch self;
     max_weight_update_interval := max_weight_update_interval self;
     launcher := launcher self;
     _batches_since_weight_update := _batches_since_weight_update self;
     tcp_port := tcp_port self;
     _frames_per_batch_corrected := _frames_per_batch_corrected self;
     num_workers_per_collector := num_workers_per_collector self;
     total_frames := total_frames self; slurm_kwargs := slurm_kwargs self;
     collector_kwargs := collector_kwargs self; backend := backend self;
     IPAddr := IPAddr self; jobs := js;
     _tensordict_out := _tensordict_out self; _single_tds := _single_tds self |}.

Definition set_container (out : TensorDict (list payload)) (views : list nat)
    (self : t) : t :=
  {| collector_class := collector_class self; env_constructors := env_constructors self;
     policy := policy self; policy_weights := policy_weights self;
     num_workers := num_workers self; frames_per_batch := frames_per_batch self;
     storing_device := storing_device self; update_interval := update_interval self;
     total_frames_per_collector := total_frames_per_collector self;
     update_after_each_batch := update_after_each_batch self;
     max_weight_update_interval := max_weight_update_interval self;
     launcher := launcher self;
     _batches_since_weight_update := _batches_since_weight_update self;
     tcp_port := tcp_port self;
     _frames_per_batch_corrected := _frames_per_batch_corrected self;
     num_workers_per_collector := num_workers_per_collector self;
     total_frames := total_frames self; slurm_kwargs := slurm_kwargs self;
     collector_kwargs := collector_kwargs self; backend := backend self;
     IPAddr := IPAddr self; jobs := jobs self;
     _tensordict_out := Some out; _single_tds := views |}.

(** [l[i]] for an index produced by [range]. *)
Definition index {S A} (l : list A) (i : Z) : M S A :=
  match l !! Z.to_nat i with
  | Some x => ret x
  | None => raise IndexError
  end.

(** [CloudpickleWrapper(env_make)] unless it is an environment instance. *)
Definition wrap_env (e : env_ctor) : env_make :=
  if is_env_instance e then Bare e else CloudpickleWrapper e.

(** The argument tuple both launchers build for worker [i]. *)
Definition node_args_for (self : t) (i : Z) : M world Worker.node_args :=
  let* e := index (env_constructors self) i in
  let env_make := wrap_env e in
  let* kwargs := index (collector_kwargs self) i in
  ret {| Worker.rank := i + 1;
         Worker.rank0_ip := default "" (IPAddr self);
         Worker.tcpport := tcp_port self;
         Worker.world_size := num_workers self + 1;
         Worker.backend := backend self;
         Worker.collector_class := collector_class self;
         Worker.num_workers := num_workers_per_collector self;
         Worker.env_make_arg := env_make;
         Worker.policy_arg := policy self;
         Worker.frames_per_batch := _frames_per_batch_corrected self;
         Worker.collector_kwargs := kwargs;
         Worker.update_interval := update_interval self;
         Worker.total_frames := total_frames_per_collector self |}.

(** A launched node runs [_distributed_init_collection_node] in a process
    of its own: an exception it raises ends that process and is not seen
    by the coordinator.  A node that gets as far as joining the process
    group is then waiting for the coordinator. *)
Definition node_status (a : Worker.node_args) : proc_status :=
  if Worker.joins a then Running
  else match (Worker.run a).1 with
       | inl e => Crashed e
       | inr _ => Exited
       end.

Definition _init_worker_dist_submitit (self : t) (i : Z) : M world job :=
  let* a := node_args_for self i in
  let* _ := emit (EvSubmit (i + 1)) in
  let* _ := set_proc (i + 1) (node_status a) in
  ret {| job_rank := i + 1; job_launcher := "submitit"; job_args := a |}.

Definition _init_worker_dist_mp (self : t) (i : Z) : M world job :=
  let* a := node_args_for self i in
  let* _ := emit (EvProcStart (i + 1)) in
  let* _ := set_proc (i + 1) (node_status a) in
  ret {| job_rank := i + 1; job_launcher := "mp"; job_args := a |}.

Definition is_alive (w : world) (j : job) : bool :=
  match procs w !! job_rank j with
  | Some Running => true
  | _ => false
  end.

(** Modelled from the spec: [torch.distributed.init_process_group] is
    not among the sources.  The rendezvous of a group of [world_size]
    members completes when every other member has joined; otherwise it
    fails with a connection error once the timeout has passed. *)
Definition _init_master_dist (self : t) (world_size : Z) (backend : string)
  : M world unit :=
  let* _ := emit (EvInitProcessGroup 0 world_size) in
  let* w := get in
  if forallb (is_alive w) (jobs self) && (Z.of_nat (length (jobs self)) + 1 =? world_size)
  then set_process_group world_size
  else raise RendezvousTimeout.

(** The body of the launch loop: [job] stays unbound for a launcher that
    is neither "submitit" nor "mp". *)
Definition launch_body (i : Z) (self : t) : M world t :=
  let* job :=
    if String.eqb (launcher self) "submitit" then _init_worker_dist_submitit self i
    else if String.eqb (launcher self) "mp" then _init_worker_dist_mp self i
    else raise (UnboundLocalError "job") in
  ret (set_jobs (jobs self ++ [job]) self).

Definition _init_workers (sys : system) (self : t) : M world t :=
  let self := set_IPAddr (host_ip sys) self in
  let* _ := emit (EvEnviron "MASTER_ADDR" (inl (host_ip sys))) in
  let* _ := emit (EvEnviron "MASTER_PORT" (inr (tcp_port self))) in
  let self := set_jobs [] self in
  let* _ :=
    if String.eqb (launcher self) "submitit" then
      if negb (_has_submitit sys) then raise (ImportError "submitit not found.")
      else emit (EvExecutor (slurm_kwargs self))
    else ret tt in
  let* self := for_ (seqZ 0 (num_workers self)) launch_body self in
  let* _ := _init_master_dist self (num_workers self + 1) (backend self) in
  ret self.

Definition _make_container (self : t) : M world t :=
  let* env_constructor := index (env_constructors self) 0 in
  let* _ := emit (EvProbeCreate env_constructor (_frames_per_batch_corrected self)
                    (total_frames self)) in
  let pseudo_collector :=
    collector_batches (_frames_per_batch_corrected self) (total_frames self) in
  let* _data :=
    match pseudo_collector with
    | frames :: _ => ret (rollout_batch env_constructor (policy self) frames)
    | [] => raise (UnboundLocalError "_data")
    end in
  let* is_sync := issubclass_SyncDataCollector (collector_class self) in
  let out :=
    if negb is_sync
    then to (storing_device self) (expand (num_workers self) _data)
    else to (storing_device self) (expand (num_workers self) _data) in
  let views := unbind0 out in
  let out := lock_ out in
  let* _ := emit EvLock in
  let* _ := emit EvProbeShutdown in
  ret (set_container out views self).

(** The attributes [__init__] assigns before it starts the workers;
    [IPAddr], [jobs] and the output buffer come later. *)
Definition attributes (sys : system) (a : Args.t)
    (total_frames_per_collector _frames_per_batch_corrected : Z) : t :=
  let num_workers := Z.of_nat (length (Args.create_env_fn a)) in
  {| collector_class :=
       match Args.collector_class a with
       | ClsName "async" => Cls MultiaSyncDataCollector
       | ClsName "sync" => Cls MultiSyncDataCollector
       | ClsName "single" => Cls SyncDataCollector
       | c => c
       end;
     env_constructors := Args.create_env_fn a;
     policy := Args.policy a;
     policy_weights := weights_of (Args.policy a);
     num_workers := num_workers;
     frames_per_batch := Args.frames_per_batch a;
     storing_device := Args.storing_device a;
     update_interval := Args.update_interval a;
     total_frames_per_collector := total_frames_per_collector;
     update_after_each_batch := Args.update_after_each_batch a;
     max_weight_update_interval := Args.max_weight_update_interval a;
     launcher := Args.launcher a;
     _batches_since_weight_update := (fun _ => 0) <$> seqZ 0 num_workers;
     tcp_port :=
       match Args.tcp_port a with
       | None => default 10003 (environ_TCP_PORT sys)
       | Some p => p
       end;
     _frames_per_batch_corrected := _frames_per_batch_corrected;
     num_workers_per_collector := Args.num_workers_per_collector a;
     total_frames := Args.total_frames a;
     slurm_kwargs := default DEFAULT_SLURM_CONF (Args.slurm_kwargs a);
     collector_kwargs :=
       match Args.collector_kwargs a with
       | KwNone => replicate (Z.to_nat num_workers) ∅
       | KwDict d => replicate (Z.to_nat num_workers) d
       | KwList l => l
       end;
     backend := Args.backend a;
     IPAddr := None;
     jobs := [];
     _tensordict_out := None;
     _single_tds := [] |}.

Definition __init__ (sys : system) (a : Args.t) : M world t :=
  let num_workers := Z.of_nat (length (Args.create_env_fn a)) in
  let* total_frames_per_collector := floordiv (Args.total_frames a) num_workers in
  let* _ :=
    if negb (total_frames_per_collector * num_workers =? Args.total_frames a)
    then raise (RuntimeError (CannotDispatchTotal (Args.total_frames a) num_workers))
    else ret tt in
  let* r := pymod (Args.frames_per_batch a) num_workers in
  let* _ :=
    if negb (r =? 0)
    then raise (RuntimeError (CannotDispatchBatch (Args.frames_per_batch a) num_workers))
    else ret tt in
  let* _frames_per_batch_corrected := floordiv (Args.frames_per_batch a) num_workers in
  let self := attributes sys a total_frames_per_collector _frames_per_batch_corrected in
  let* self := _init_workers sys self in
  _make_container self.

(** The number of workers a configuration asks for: [len(create_env_fn)]. *)
Definition nworkers (a : Args.t) : Z := Z.of_nat (length (Args.create_env_fn a)).

(** *** Methods

    A method runs on the pair of the object and the world. *)

Definition lift {A} (m : M world A) : M (t * world) A :=
  fun s => let '(r, w) := m s.2 in (r, (s.1, w)).

Definition get_self : M (t * world) t := fun s => (inr s.1, s).

Definition get_attr {A} (name : string) (f : t -> option A) : M (t * world) A :=
  fun s => match f s.1 with
           | Some x => (inr x, s)
           | None => (inl (AttributeError name), s)
           end.

Definition set_self (f : t -> t) : M (t * world) unit :=
  modify (fun s => (f s.1, s.2)).

(** The local variables of the generator [_iterator_dist], between two
    of its [yield]s. *)
Record gen := {
  g_total_frames : Z;
  g_j : Z
}.

Definition gen_start : gen := {| g_total_frames := 0; g_j := -1 |}.

(** Receiving into [self._single_tds[i]] writes through the view into
    [self._tensordict_out]. *)
Definition write_view (v : nat) (d : payload) (self : t) : t :=
  match _tensordict_out self with
  | Some out => set_container (irecv_into v d out) (_single_tds self) self
  | None => self
  end.

(** The bodies of the three [for] loops of a round: the broadcast, the
    posting of the receives (which collects the trackers) and the waits.
    A tracker is the list of pending transfers of one worker; waiting on
    all of them is one [EvWait], after which the batch of that worker
    for round [j] is in its slice of the buffer. *)
Definition isend_body (self : t) (i : Z) (_ : unit) : M (t * world) unit :=
  let rank := i + 1 in
  lift (emit (EvIsend rank (policy_weights self))).

Definition irecv_body (self : t) (i : Z) (trackers : list (nat * Z))
  : M (t * world) (list (nat * Z)) :=
  let rank := i + 1 in
  let* v := index (_single_tds self) i in
  let* _ := lift (emit (EvIrecv i rank)) in
  ret (trackers ++ [(v, rank)]).

Definition wait_body (j : Z) (tracker : nat * Z) (_ : unit) : M (t * world) unit :=
  let* _ := lift (emit (EvWait tracker.2)) in
  set_self (write_view tracker.1 (FromWorker tracker.2 j)).

(** One turn of the [while] loop of [_iterator_dist], from the test of
    the loop to the [yield]: [None] when the loop ends. *)
Definition _iterator_dist_next (g : gen) : M (t * world) (option (TensorDict (list payload) * gen)) :=
  let* self := get_self in
  if g_total_frames g <? total_frames self then
    let j := g_j g + 1 in
    let* r := pymod j (update_interval self) in
    let* _ :=
      if r =? 0 then for_ (seqZ 0 (num_workers self)) (isend_body self) tt
      else ret tt in
    let* trackers := for_ (seqZ 0 (num_workers self)) (irecv_body self) [] in
    let* _ := for_ trackers (wait_body j) tt in
    let* out := get_attr "_tensordict_out" _tensordict_out in
    let data := clone out in
    let total_frames := g_total_frames g + numel data in
    let* _ := lift (emit (EvYield j)) in
    ret (Some (data, {| g_total_frames := total_frames; g_j := j |}))
  else ret None.

(** Consuming the iterator: at most [fuel] calls of [next].  The boolean
    tells whether the generator was exhausted. *)
Fixpoint consume (fuel : nat) (g : gen)
  : M (t * world) (list (TensorDict (list payload)) * gen * bool) :=
  match fuel with
  | O => ret ([], g, false)
  | S fuel' =>
      let* r := _iterator_dist_next g in
      match r with
      | None => ret ([], g, true)
      | Some (data, g') =>
          let* rest := consume fuel' g' in
          ret (data :: rest.1.1, rest.1.2, rest.2)
      end
  end.

Definition iterator (fuel : nat)
  : M (t * world) (list (TensorDict (list payload)) * gen * bool) :=
  consume fuel gen_start.

Definition update_policy_weights_ (worker_rank : option Z) : M (t * world) unit :=
  raise NotImplementedError.

Definition set_seed (seed : Z) (static_seed : bool) : M (t * world) Z :=
  raise NotImplementedError.

Definition state_dict : M (t * world) (gmap string pyval) :=
  raise NotImplementedError.

Definition load_state_dict (state_dict : gmap string pyval) : M (t * world) unit :=
  raise NotImplementedError.

Definition shutdown : M (t * world) unit :=
  ret tt.

End Coordinator.

Import Coordinator.

(** ** Vocabulary for the statements *)

Module Spec.

(** The event with which a launcher starts worker [i]. *)
Definition launch_event (launcher : string) (i : Z) : event :=
  if String.eqb launcher "submitit" then EvSubmit (i + 1) else EvProcStart (i + 1).

Definition is_launch (e : event) : bool :=
  match e with EvSubmit _ | EvProcStart _ => true | _ => false end.

Definition is_setup (e : event) : bool :=
  match e with EvEnviron _ _ | EvExecutor _ => true | _ => false end.

Definition is_rendezvous (e : event) : bool :=
  match e with EvInitProcessGroup _ _ => true | _ => false end.

Definition is_probe (e : event) : bool :=
  match e with EvProbeCreate _ _ _ => true | _ => false end.

(** A job handle agrees with the coordinator that launched it. *)
Definition job_of (self : t) (j : job) : Prop :=
  job_rank j = Worker.rank (job_args j) /\
  Worker.world_size (job_args j) = num_workers self + 1 /\
  Worker.collector_class (job_args j) = collector_class self /\
  Worker.num_workers (job_args j) = num_workers_per_collector self /\
  Worker.policy_arg (job_args j) = policy self /\
  Worker.frames_per_batch (job_args j) = _frames_per_batch_corrected self /\
  Worker.update_interval (job_args j) = update_interval self /\
  Worker.total_frames (job_args j) = total_frames_per_collector self.

(** The buffer [_make_container] builds from the first environment
    constructor. *)
Definition container (e0 : env_ctor) (p : Collectors.policy) (dev : string)
    (num_workers frames : Z) : TensorDict (list payload) :=
  lock_ (to dev (expand num_workers (rollout_batch e0 p frames))).





(** A coordinator whose buffer [out] is in place, one slice and one view
    per worker. *)
Definition ready (self : t) (out : TensorDict (list payload)) : Prop :=
  0 <= num_workers self /\
  _tensordict_out self = Some out /\
  length (data out) = Z.to_nat (num_workers self) /\
  _single_tds self = seq 0 (Z.to_nat (num_workers self)).



(** Some event in [P] occurs strictly before some event in [Q]. *)
Fixpoint occurs_before (P Q : event -> bool) (l : list event) : bool :=
  match l with
  | [] => false
  | e :: l' => (P e && existsb Q l') || occurs_before P Q l'
  end.

(** The two [RuntimeError]s of the frame checks. *)
Definition is_frame_count_error (e : exn) : bool :=
  match e with
  | RuntimeError (CannotDispatchTotal _ _) | RuntimeError (CannotDispatchBatch _ _) => true
  | _ => false
  end.

(** What construction can still raise once the frame checks have
    passed. *)
Definition after_checks_error (e : exn) : Prop :=
  match e with
  | ImportError _ | UnboundLocalError _ | IndexError | RendezvousTimeout | TypeError => True
  | _ => False
  end.






(** The broadcasts of rounds [0] to [N], in the spec's words: the
    parameters, once for every round whose index is a multiple of the
    update interval. *)
Definition broadcasts_through (update_interval : Z) (keys : list string) (N : Z)
  : list string :=
  concat ((fun j => if j `mod` update_interval =? 0 then keys else [])
            <$> seqZ 0 (N + 1)).

(** [n] calls of a method in a row. *)
Fixpoint times {S A} (n : nat) (m : M S A) : M S unit :=
  match n with
  | O => ret tt
  | S n' => let* _ := m in times n' m
  end.

End Spec.

Import Spec.

(** ** Concrete configurations *)

Module Example.

Definition env0 : env_ctor :=
  {| env_id := "pendulum";
     env_fields := <["observation" := [3]]> (<["reward" := [1]]> (<["done" := [1]]> ∅));
     is_env_instance := false |}.

Definition env1 : env_ctor :=
  {| env_id := "pixels";
     env_fields := <["pixels" := [4; 4]]> (<["done" := [1]]> ∅);
     is_env_instance := true |}.

Definition actor : Collectors.policy :=
  {| is_nn_Module := true;
     named_parameters := [("weight", "cpu"); ("bias", "cpu")];
     policy_fields := <["action" := [2]]> ∅ |}.

Definition no_submitit : system :=
  {| _has_submitit := false; environ_TCP_PORT := None; host_ip := "10.0.0.1" |}.

Definition args (envs : list env_ctor) (frames_per_batch total_frames : Z)
    (collector_class : class_arg) (num_workers_per_collector update_interval : Z)
    (launcher : string) : Args.t :=
  {| Args.create_env_fn := envs;
     Args.policy := actor;
     Args.frames_per_batch := frames_per_batch;
     Args.total_frames := total_frames;
     Args.collector_class := collector_class;
     Args.collector_kwargs := KwNone;
     Args.num_workers_per_collector := num_workers_per_collector;
     Args.slurm_kwargs := None;
     Args.backend := "gloo";
     Args.storing_device := "cpu";
     Args.update_after_each_batch := false;
     Args.max_weight_update_interval := -1;
     Args.update_interval := update_interval;
     Args.launcher := launcher;
     Args.tcp_port := None |}.

(** Two workers, batches of 4 frames, 12 frames in all, a broadcast every
    second round, local processes. *)
Definition two_workers : Args.t :=
  args [env0; env1] 4 12 (Cls SyncDataCollector) 1 2 "mp".

(** 100 frames over 3 workers, and batches of 15 frames over 4 workers. *)
Definition total_indivisible : Args.t :=
  args [env0; env0; env0] 15 100 (Cls SyncDataCollector) 1 1 "mp".

Definition batch_indivisible : Args.t :=
  args [env0; env0; env0; env0] 15 100 (Cls SyncDataCollector) 1 1 "mp".

(** The single-environment strategy with two sub-environments. *)
Definition single_with_two : Args.t :=
  args [env0; env1] 4 12 (ClsName "single") 2 1 "mp".


(** The arguments of the node of rank 1 of [two_workers], with
    [num_workers] sub-environments. *)
Definition node (num_workers : Z) : Worker.node_args :=
  {| Worker.rank := 1;
     Worker.rank0_ip := "10.0.0.1";
     Worker.tcpport := 10003;
     Worker.world_size := 3;
     Worker.backend := "gloo";
     Worker.collector_class := Cls SyncDataCollector;
     Worker.num_workers := num_workers;
     Worker.env_make_arg := CloudpickleWrapper env0;
     Worker.policy_arg := actor;
     Worker.frames_per_batch := 2;
     Worker.collector_kwargs := ∅;
     Worker.update_interval := 2;
     Worker.total_frames := 6 |}.

End Example.

(** ** Further configurations *)

Module Example2.

(** Three workers with a list of keyword arguments for two of them. *)
Definition short_kwargs : Args.t :=
  {| Args.create_env_fn := [Example.env0; Example.env1; Example.env0];
     Args.policy := Example.actor;
     Args.frames_per_batch := 6;
     Args.total_frames := 12;
     Args.collector_class := Cls MultiSyncDataCollector;
     Args.collector_kwargs := KwList [∅; ∅];
     Args.num_workers_per_collector := 2;
     Args.slurm_kwargs := None;
     Args.backend := "gloo";
     Args.storing_device := "cpu";
     Args.update_after_each_batch := false;
     Args.max_weight_update_interval := -1;
     Args.update_interval := 1;
     Args.launcher := "mp";
     Args.tcp_port := Some 29500 |}.

(** No worker at all. *)
Definition no_workers : Args.t :=
  Example.args [] 4 12 (Cls SyncDataCollector) 1 1 "mp".

(** A launcher that is neither "submitit" nor "mp". *)
Definition odd_launcher : Args.t :=
  Example.args [Example.env0; Example.env1] 4 12 (Cls SyncDataCollector) 1 1 "ray".

(** An update interval of zero. *)
Definition zero_interval : Args.t :=
  Example.args [Example.env0; Example.env1] 4 12 (Cls SyncDataCollector) 1 0 "mp".



End Example2.

(** ** Further vocabulary *)

Module Spec2.

(** The port a configuration ends up with: the argument, else the
    [TCP_PORT] environment variable, else 10003. *)
Definition port_of (sys : system) (a : Args.t) : Z :=
  match Args.tcp_port a with
  | Some p => p
  | None => match environ_TCP_PORT sys with Some p => p | None => 10003 end
  end.

(** The keyword arguments of worker [i]: the list entry, or the one
    dictionary shared by all workers. *)
Definition kwargs_of (a : Args.t) (i : nat) : option (gmap string pyval) :=
  match Args.collector_kwargs a with
  | KwNone => if decide (i < length (Args.create_env_fn a))%nat then Some ∅ else None
  | KwDict d => if decide (i < length (Args.create_env_fn a))%nat then Some d else None
  | KwList l => l !! i
  end.


Definition is_join_w (e : Worker.wevent) : bool := Worker.is_join e.



(** The arguments of the node of worker [i], for its environment
    constructor [e] and its keyword arguments [kw]. *)
Definition args_for (self : t) (i : Z) (e : env_ctor) (kw : gmap string pyval)
  : Worker.node_args :=
  {| Worker.rank := i + 1;
     Worker.rank0_ip := default "" (IPAddr self);
     Worker.tcpport := tcp_port self;
     Worker.world_size := num_workers self + 1;
     Worker.backend := backend self;
     Worker.collector_class := collector_class self;
     Worker.num_workers := num_workers_per_collector self;
     Worker.env_make_arg := wrap_env e;
     Worker.policy_arg := policy self;
     Worker.frames_per_batch := _frames_per_batch_corrected self;
     Worker.collector_kwargs := kw;
     Worker.update_interval := update_interval self;
     Worker.total_frames := total_frames_per_collector self |}.

(** The handle of worker [i]. *)
Definition job_for (self : t) (i : Z) (j : job) : Prop :=
  job_rank j = i + 1 /\
  job_launcher j = launcher self /\
  exists e kw,
    env_constructors self !! Z.to_nat i = Some e /\
    collector_kwargs self !! Z.to_nat i = Some kw /\
    job_args j = args_for self i e kw.




End Spec2.

Import Spec2.

(** * Properties *)

(** ** Reasoning in the monad *)

Section MonadLemmas.
Context {S : Type}.

Lemma bind_inr {A B} (m : M S A) (k : A -> M S B) s b s' :
  bind m k s = (inr b, s') ->
  exists a s1, m s = (inr a, s1) /\ k a s1 = (inr b, s').
Proof.
  unfold bind. destruct (m s) as [[e|a] s1]; [discriminate|]. eauto.
Qed.

Lemma bind_inl {A B} (m : M S A) (k : A -> M S B) s e s' :
  bind m k s = (inl e, s') ->
  m s = (inl e, s') \/ exists a s1, m s = (inr a, s1) /\ k a s1 = (inl e, s').
Proof.
  unfold bind. destruct (m s) as [[e1|a] s1]; [left; congruence|]. eauto.
Qed.

Lemma bind_step {A B} (m : M S A) (k : A -> M S B) s a s1 :
  m s = (inr a, s1) -> bind m k s = k a s1.
Proof. unfold bind. intros ->. reflexivity. Qed.

Lemma bind_fail {A B} (m : M S A) (k : A -> M S B) s e s1 :
  m s = (inl e, s1) -> bind m k s = (inl e, s1).
Proof. unfold bind. intros ->. reflexivity. Qed.

Lemma raises_only_ret {A} P (a : A) : raises_only (S:=S) P (ret a).
Proof. intros s e s' H. discriminate. Qed.

Lemma raises_only_raise {A} (P : exn -> Prop) e : P e -> raises_only (S:=S) (A:=A) P (raise e).
Proof. intros HP s e' s' H. inversion H. subst. exact HP. Qed.

Lemma raises_only_modify P f : raises_only P (modify (S:=S) f).
Proof. intros s e s' H. discriminate. Qed.

Lemma raises_only_get P : raises_only P (get (S:=S)).
Proof. intros s e s' H. discriminate. Qed.

Lemma raises_only_bind {A B} P (m : M S A) (k : A -> M S B) :
  raises_only P m -> (forall a, raises_only P (k a)) -> raises_only P (bind m k).
Proof.
  intros Hm Hk s e s' H. apply bind_inl in H as [H|(a & s1 & _ & H)].
  - eapply Hm, H.
  - eapply Hk, H.
Qed.

Lemma raises_only_bind_dep {A B} P (m : M S A) (k : A -> M S B) :
  (forall s a s1, m s = (inr a, s1) -> raises_only P (k a)) ->
  raises_only P m -> raises_only P (bind m k).
Proof.
  intros Hk Hm s e s' H. apply bind_inl in H as [H|(a & s1 & Ha & H)].
  - eapply Hm, H.
  - eapply Hk; [exact Ha|exact H].
Qed.

Lemma raises_only_for {A X} P (xs : list X) (body : X -> A -> M S A) a :
  (forall x a, raises_only P (body x a)) -> raises_only P (for_ xs body a).
Proof.
  intros Hb. revert a. induction xs as [|x xs IH]; intros a; simpl.
  - apply raises_only_ret.
  - apply raises_only_bind; [apply Hb | exact IH].
Qed.

Lemma raises_only_if {A} P (b : bool) (m1 m2 : M S A) :
  raises_only P m1 -> raises_only P m2 -> raises_only P (if b then m1 else m2).
Proof. destruct b; trivial. Qed.

Lemma raises_only_floordiv P a b :
  P ZeroDivisionError -> raises_only P (floordiv (S:=S) a b).
Proof.
  intros HP. unfold floordiv. apply raises_only_if;
    [apply raises_only_raise, HP | apply raises_only_ret].
Qed.

Lemma raises_only_pymod P a b :
  P ZeroDivisionError -> raises_only P (pymod (S:=S) a b).
Proof.
  intros HP. unfold pymod. apply raises_only_if;
    [apply raises_only_raise, HP | apply raises_only_ret].
Qed.

Lemma raises_only_index {A} P (l : list A) i :
  P IndexError -> raises_only P (index (S:=S) l i).
Proof.
  intros HP. unfold index. destruct (l !! Z.to_nat i);
    [apply raises_only_ret | apply raises_only_raise, HP].
Qed.

Lemma raises_only_issubclass P c :
  P TypeError -> raises_only P (issubclass_SyncDataCollector (S:=S) c).
Proof.
  intros HP. destruct c; [apply raises_only_raise, HP | apply raises_only_ret].
Qed.

End MonadLemmas.

Lemma raises_only_lift {A} P (m : M world A) :
  raises_only P m -> raises_only P (lift m).
Proof.
  intros Hm [s w] e [s' w'] H. unfold lift in H. simpl in H.
  destruct (m w) as [[e1|a] w1] eqn:E; inversion H; subst. eapply Hm, E.
Qed.

Create HintDb raises.

#[local] Hint Resolve raises_only_ret raises_only_modify raises_only_get : raises.

(** Breaks a goal [raises_only P m] down along the structure of [m]. *)
Ltac raises_step :=
  match goal with
  | |- raises_only _ (bind _ _) => apply raises_only_bind; [|intros ?]
  | |- raises_only _ (for_ _ _ _) => apply raises_only_for; intros ? ?
  | |- raises_only _ (if _ then _ else _) => apply raises_only_if
  | |- raises_only _ (raise _) => apply raises_only_raise
  | |- raises_only _ (lift _) => apply raises_only_lift
  | |- raises_only _ (floordiv _ _) => apply raises_only_floordiv
  | |- raises_only _ (pymod _ _) => apply raises_only_pymod
  | |- raises_only _ (index _ _) => apply raises_only_index
  | |- raises_only _ (issubclass_SyncDataCollector _) => apply raises_only_issubclass
  | |- raises_only _ (match ?x with _ => _ end) => destruct x
  | |- raises_only _ _ => solve [eauto with raises]
  end.

Ltac raises := repeat raises_step.

(** ** Construction: the frame checks *)

Lemma exact_div_iff a b : b <> 0 -> (a `div` b * b =? a) = (a `mod` b =? 0).
Proof.
  intros Hb. pose proof (Z.div_mod a b Hb).
  destruct (a `mod` b =? 0) eqn:E; [apply Z.eqb_eq in E|apply Z.eqb_neq in E].
  - apply Z.eqb_eq. lia.
  - apply Z.eqb_neq. lia.
Qed.

Lemma init_no_workers sys a w :
  nworkers a = 0 -> __init__ sys a w = (inl ZeroDivisionError, w).
Proof.
  intros Hnw. unfold __init__, floordiv. fold (nworkers a). rewrite Hnw. reflexivity.
Qed.

Lemma init_total_indivisible sys a w :
  nworkers a <> 0 -> Args.total_frames a `mod` nworkers a <> 0 ->
  __init__ sys a w =
    (inl (RuntimeError (CannotDispatchTotal (Args.total_frames a) (nworkers a))), w).
Proof.
  intros Hnw Hmod. unfold __init__, floordiv. fold (nworkers a).
  apply Z.eqb_neq in Hnw. rewrite Hnw. apply Z.eqb_neq in Hnw.
  erewrite bind_step by reflexivity.
  rewrite exact_div_iff by done.
  apply Z.eqb_neq in Hmod. rewrite Hmod. reflexivity.
Qed.

Lemma init_batch_indivisible sys a w :
  nworkers a <> 0 -> Args.total_frames a `mod` nworkers a = 0 ->
  Args.frames_per_batch a `mod` nworkers a <> 0 ->
  __init__ sys a w =
    (inl (RuntimeError (CannotDispatchBatch (Args.frames_per_batch a) (nworkers a))), w).
Proof.
  intros Hnw Hmod Hfpb. unfold __init__, floordiv, pymod. fold (nworkers a).
  apply Z.eqb_neq in Hnw. rewrite Hnw. apply Z.eqb_neq in Hnw.
  erewrite bind_step by reflexivity.
  rewrite exact_div_iff by done.
  apply Z.eqb_eq in Hmod. rewrite Hmod. simpl negb. cbv iota.
  erewrite bind_step by reflexivity.
  erewrite bind_step by reflexivity.
  apply Z.eqb_neq in Hfpb. rewrite Hfpb. reflexivity.
Qed.

(** With both frame counts divisible, construction is the launch of the
    workers followed by the allocation of the buffer. *)
Lemma init_frames_ok sys a w :
  nworkers a <> 0 -> Args.total_frames a `mod` nworkers a = 0 ->
  Args.frames_per_batch a `mod` nworkers a = 0 ->
  __init__ sys a w =
    bind (_init_workers sys
            (attributes sys a (Args.total_frames a `div` nworkers a)
               (Args.frames_per_batch a `div` nworkers a)))
         _make_container w.
Proof.
  intros Hnw Hmod Hfpb. unfold __init__, floordiv, pymod. fold (nworkers a).
  apply Z.eqb_neq in Hnw. rewrite Hnw. apply Z.eqb_neq in Hnw.
  erewrite bind_step by reflexivity.
  rewrite exact_div_iff by done.
  apply Z.eqb_eq in Hmod. rewrite Hmod. simpl negb. cbv iota.
  erewrite bind_step by reflexivity.
  erewrite bind_step by reflexivity.
  apply Z.eqb_eq in Hfpb. rewrite Hfpb. simpl negb. cbv iota.
  erewrite bind_step by reflexivity.
  erewrite bind_step by reflexivity.
  reflexivity.
Qed.

(** A successful construction passed both frame checks. *)
Lemma init_inr_frames sys a w s w' :
  __init__ sys a w = (inr s, w') ->
  nworkers a <> 0 /\ Args.total_frames a `mod` nworkers a = 0 /\
  Args.frames_per_batch a `mod` nworkers a = 0.
Proof.
  intros H.
  destruct (decide (nworkers a = 0)) as [E|Hnw];
    [rewrite init_no_workers in H by done; discriminate|].
  destruct (decide (Args.total_frames a `mod` nworkers a = 0)) as [Ht|Ht];
    [|rewrite init_total_indivisible in H by done; discriminate].
  destruct (decide (Args.frames_per_batch a `mod` nworkers a = 0)) as [Hf|Hf];
    [|rewrite init_batch_indivisible in H by done; discriminate].
  done.
Qed.

(** ** Construction: launching the workers *)

Lemma node_args_for_inr self i w a w' :
  node_args_for self i w = (inr a, w') ->
  w' = w /\ Worker.rank a = i + 1 /\
  job_of self {| job_rank := i + 1; job_launcher := ""; job_args := a |}.
Proof.
  unfold node_args_for, index. intros H.
  destruct (env_constructors self !! Z.to_nat i); [|discriminate].
  erewrite bind_step in H by reflexivity.
  destruct (collector_kwargs self !! Z.to_nat i); [|discriminate].
  erewrite bind_step in H by reflexivity.
  inversion H; subst. unfold job_of; simpl. done.
Qed.

Lemma launch_body_inr i self w self' w' :
  launch_body i self w = (inr self', w') ->
  exists j, self' = set_jobs (jobs self ++ [j]) self /\
    job_rank j = i + 1 /\ job_of self j /\
    log w' = log w ++ [launch_event (launcher self) i] /\
    process_group w' = process_group w /\
    procs w' = <[i + 1 := node_status (job_args j)]> (procs w).
Proof.
  unfold launch_body, launch_event. intros H.
  apply bind_inr in H as (j & w1 & Hj & H). inversion H; subst; clear H.
  exists j. split; [done|].
  destruct (String.eqb (launcher self) "submitit").
  - unfold _init_worker_dist_submitit in Hj.
    apply bind_inr in Hj as (a & w2 & Ha & Hj).
    apply node_args_for_inr in Ha as (-> & Hr & Hof).
    inversion Hj; subst; clear Hj. simpl. done.
  - destruct (String.eqb (launcher self) "mp"); [|discriminate].
    unfold _init_worker_dist_mp in Hj.
    apply bind_inr in Hj as (a & w2 & Ha & Hj).
    apply node_args_for_inr in Ha as (-> & Hr & Hof).
    inversion Hj; subst; clear Hj. simpl. done.
Qed.

Lemma launch_loop_inr xs : forall self w self' w',
  for_ xs launch_body self w = (inr self', w') ->
  exists js, self' = set_jobs (jobs self ++ js) self /\
    job_rank <$> js = (fun i => i + 1) <$> xs /\
    Forall (job_of self) js /\
    log w' = log w ++ (launch_event (launcher self) <$> xs) /\
    process_group w' = process_group w /\
    (forall r, r ∉ (fun i => i + 1) <$> xs -> procs w' !! r = procs w !! r) /\
    (NoDup xs ->
     Forall (fun j => procs w' !! job_rank j = Some (node_status (job_args j))) js).
Proof.
  induction xs as [|x xs IH]; intros self w self' w' H; simpl in H.
  - inversion H; subst. exists []. rewrite !app_nil_r.
    split; [by destruct self'|]. done.
  - apply bind_inr in H as (s1 & w1 & H1 & H).
    apply launch_body_inr in H1 as (j & -> & Hr & Hof & Hlog & Hpg & Hprocs).
    apply IH in H as (js & -> & Hrs & Hofs & Hlog' & Hpg' & Hframe & Hok).
    exists (j :: js). rewrite !fmap_cons, Hr, Hrs.
    change (jobs (set_jobs (jobs self ++ [j]) self)) with (jobs self ++ [j]).
    change (launcher (set_jobs (jobs self ++ [j]) self)) with (launcher self) in Hlog'.
    rewrite <- app_assoc.
    split; [done|]. split; [done|].
    split; [constructor; [done|]; eapply Forall_impl; [exact Hofs|]; by intros ?|].
    split; [by rewrite Hlog', Hlog, <- app_assoc|].
    split; [congruence|]. split.
    + intros r Hr'. apply not_elem_of_cons in Hr' as [Hne Hr'].
      rewrite Hframe by done. rewrite Hprocs. by rewrite lookup_insert_ne.
    + intros Hnd. apply NoDup_cons in Hnd as [Hx Hnd]. constructor; [|by apply Hok].
      rewrite Hr, Hframe, Hprocs; [by rewrite lookup_insert_eq|].
      intros Hin. apply list_elem_of_fmap in Hin as (y & Hy & Hin).
      assert (y = x) as -> by lia. done.
Qed.

Lemma init_master_dist_inr self ws be w u w' :
  _init_master_dist self ws be w = (inr u, w') ->
  log w' = log w ++ [EvInitProcessGroup 0 ws] /\ procs w' = procs w /\
  process_group w' = Some ws /\
  forallb (is_alive w') (jobs self) = true.
Proof.
  unfold _init_master_dist. intros H.
  erewrite bind_step in H by reflexivity.
  erewrite bind_step in H by reflexivity.
  match type of H with (if ?c then _ else _) _ = _ => destruct c eqn:E end;
    [|discriminate].
  inversion H; subst; clear H. simpl.
  apply andb_true_iff in E as [E _]. done.
Qed.


Lemma init_workers_inr sys self w self' w' :
  _init_workers sys self w = (inr self', w') ->
  exists js pre,
    self' = set_jobs js (set_IPAddr (host_ip sys) self) /\
    job_rank <$> js = (fun i => i + 1) <$> seqZ 0 (num_workers self) /\
    Forall (job_of self) js /\
    Forall (fun e => is_setup e = true) pre /\
    log w' = log w ++ pre ++ (launch_event (launcher self) <$> seqZ 0 (num_workers self))
               ++ [EvInitProcessGroup 0 (num_workers self + 1)] /\
    process_group w' = Some (num_workers self + 1) /\
    forallb (is_alive w') js = true /\
    Forall (fun j => procs w' !! job_rank j = Some (node_status (job_args j))) js.
Proof.
  unfold _init_workers. intros H.
  erewrite bind_step in H by reflexivity.
  erewrite bind_step in H by reflexivity.
  apply bind_inr in H as ([] & w1 & Hex & H).
  apply bind_inr in H as (s1 & w2 & Hloop & H).
  apply bind_inr in H as ([] & w3 & Hrdv & H).
  inversion H; subst; clear H.
  apply launch_loop_inr in Hloop as (js & -> & Hrs & Hofs & Hlog & Hpg & _ & Hok).
  specialize (Hok (NoDup_seqZ _ _)).
  apply init_master_dist_inr in Hrdv as (Hlog3 & Hprocs & Hpg3 & Halive).
  simpl in *.
  assert (exists pre1, log w1 = log w ++ pre1 /\ Forall (fun e => is_setup e = true) pre1)
    as (pre1 & Hlog1 & Hpre1).
  { destruct (String.eqb (launcher self) "submitit").
    - destruct (negb (_has_submitit sys)); [discriminate|].
      inversion Hex; subst; simpl. rewrite <- !app_assoc. eexists; split; [reflexivity|].
      repeat constructor.
    - inversion Hex; subst; simpl. rewrite <- !app_assoc. eexists; split; [reflexivity|].
      repeat constructor. }
  exists js, pre1. split; [done|]. split; [done|]. split; [done|]. split; [done|].
  split; [rewrite Hlog3, Hlog, Hlog1, <- !app_assoc; reflexivity|].
  split; [done|]. split; [done|].
  eapply Forall_impl; [exact Hok|]. intros j Hj. simpl in Hj. by rewrite Hprocs.
Qed.

(** ** Construction: the output buffer *)

Lemma collector_batches_cons fpb total frames rest :
  collector_batches fpb total = frames :: rest ->
  frames = fpb /\ 0 < fpb /\ 0 < total.
Proof.
  unfold collector_batches. intros H.
  destruct (0 <? fpb) eqn:E1; [|discriminate].
  destruct (0 <? total) eqn:E2; [|discriminate].
  simpl in H. apply Z.ltb_lt in E1, E2.
  destruct (Z.to_nat _); [discriminate|]. simpl in H. inversion H; subst. done.
Qed.

Lemma make_container_inr self w self' w' :
  _make_container self w = (inr self', w') ->
  exists e0,
    env_constructors self !! 0%nat = Some e0 /\
    0 < _frames_per_batch_corrected self /\ 0 < total_frames self /\
    self' = set_container
              (container e0 (policy self) (storing_device self) (num_workers self)
                 (_frames_per_batch_corrected self))
              (seq 0 (Z.to_nat (num_workers self))) self /\
    log w' = log w ++ [EvProbeCreate e0 (_frames_per_batch_corrected self) (total_frames self);
                       EvLock; EvProbeShutdown] /\
    procs w' = procs w /\ process_group w' = process_group w.
Proof.
  unfold _make_container, index. intros H. change (Z.to_nat 0) with 0%nat in H.
  destruct (env_constructors self !! 0%nat) as [e0|]; [|discriminate].
  erewrite bind_step in H by reflexivity.
  erewrite bind_step in H by reflexivity.
  destruct (collector_batches _ _) as [|frames rest] eqn:Ecb; [discriminate|].
  apply collector_batches_cons in Ecb as (-> & Hf & Ht).
  erewrite bind_step in H by reflexivity.
  apply bind_inr in H as (b & w1 & Hsub & H).
  assert (w1 = {| log := log w ++ [EvProbeCreate e0 (_frames_per_batch_corrected self)
                                     (total_frames self)];
                  procs := procs w; process_group := process_group w |}) as ->.
  { destruct (collector_class self); inversion Hsub; done. }
  inversion H; subst; clear H. exists e0.
  split; [done|]. split; [done|]. split; [done|].
  split.
  { unfold container. destruct b; simpl; unfold unbind0; simpl;
      by rewrite length_replicate. }
  simpl. rewrite <- !app_assoc. done.
Qed.

(** What a successful construction leaves behind. *)
Lemma init_inr sys a w s w' :
  __init__ sys a w = (inr s, w') ->
  exists e0 js pre,
    0 < nworkers a /\
    Args.total_frames a `mod` nworkers a = 0 /\
    Args.frames_per_batch a `mod` nworkers a = 0 /\
    0 < Args.frames_per_batch a `div` nworkers a /\
    0 < Args.total_frames a /\
    Args.create_env_fn a !! 0%nat = Some e0 /\
    s = set_container
          (container e0 (Args.policy a) (Args.storing_device a) (nworkers a)
             (Args.frames_per_batch a `div` nworkers a))
          (seq 0 (Z.to_nat (nworkers a)))
          (set_jobs js (set_IPAddr (host_ip sys)
             (attributes sys a (Args.total_frames a `div` nworkers a)
                (Args.frames_per_batch a `div` nworkers a)))) /\
    job_rank <$> js = (fun i => i + 1) <$> seqZ 0 (nworkers a) /\
    Forall (job_of s) js /\
    Forall (fun e => is_setup e = true) pre /\
    log w' = log w ++ pre
               ++ (launch_event (Args.launcher a) <$> seqZ 0 (nworkers a))
               ++ [EvInitProcessGroup 0 (nworkers a + 1);
                   EvProbeCreate e0 (Args.frames_per_batch a `div` nworkers a)
                     (Args.total_frames a);
                   EvLock; EvProbeShutdown] /\
    process_group w' = Some (nworkers a + 1) /\
    forallb (is_alive w') js = true /\
    Forall (fun j => procs w' !! job_rank j = Some (node_status (job_args j))) js.
Proof.
  intros H. pose proof (init_inr_frames _ _ _ _ _ H) as (Hnw & Ht & Hf).
  rewrite init_frames_ok in H by done.
  apply bind_inr in H as (s1 & w1 & Hw & Hc).
  apply init_workers_inr in Hw
    as (js & pre & -> & Hrs & Hofs & Hpre & Hlog & Hpg & Hal & Hok).
  apply make_container_inr in Hc as (e0 & He0 & Hfpb & Htot & -> & Hlog' & Hprocs & Hpg').
  exists e0, js, pre. simpl in *.
  split; [unfold nworkers in *; lia|].
  repeat (split; [done|]).
  split; [|split; [|split]].
  - unfold nworkers. rewrite Hlog', Hlog, <- !app_assoc. reflexivity.
  - unfold nworkers. congruence.
  - unfold is_alive in *. by rewrite Hprocs.
  - eapply Forall_impl; [exact Hok|]. intros j Hj. simpl in Hj. by rewrite Hprocs.
Qed.

(** ** Iteration: one round *)













(** ** Iteration: consuming the generator *)





(** ** What construction can raise *)

Lemma raises_only_emit P e : raises_only P (emit e).
Proof. apply raises_only_modify. Qed.

Lemma raises_only_set_proc P r st : raises_only P (set_proc r st).
Proof. apply raises_only_modify. Qed.

Lemma raises_only_set_process_group P n : raises_only P (set_process_group n).
Proof. apply raises_only_modify. Qed.

#[local] Hint Resolve raises_only_emit raises_only_set_proc
  raises_only_set_process_group : raises.

Lemma init_workers_raises sys self : raises_only after_checks_error (_init_workers sys self).
Proof.
  unfold _init_workers, launch_body, _init_master_dist, _init_worker_dist_submitit,
    _init_worker_dist_mp, node_args_for.
  raises; simpl; done.
Qed.

Lemma make_container_raises self : raises_only after_checks_error (_make_container self).
Proof. unfold _make_container. raises; simpl; done. Qed.

(** Every exception of the constructor. *)
Lemma init_raises sys a w e w' :
  __init__ sys a w = (inl e, w') ->
  e = ZeroDivisionError \/ is_frame_count_error e = true \/ after_checks_error e.
Proof.
  intros H.
  destruct (decide (nworkers a = 0)) as [E|Hnw];
    [rewrite init_no_workers in H by done; inversion H; auto|].
  destruct (decide (Args.total_frames a `mod` nworkers a = 0)) as [Ht|Ht];
    [|rewrite init_total_indivisible in H by done; inversion H; auto].
  destruct (decide (Args.frames_per_batch a `mod` nworkers a = 0)) as [Hf|Hf];
    [|rewrite init_batch_indivisible in H by done; inversion H; auto].
  rewrite init_frames_ok in H by done. right; right.
  apply bind_inl in H as [H|(s1 & w1 & _ & H)].
  - eapply init_workers_raises, H.
  - eapply make_container_raises, H.
Qed.

(** ** The frame checks of the constructor *)

(** C2.  With at least one worker, construction raises the configuration
    error [RuntimeError] "Cannot dispatch ... frames across ..." when
    [total_frames] is not a multiple of the number of workers, and it raises
    a configuration error of that kind when [frames_per_batch] is not a
    multiple of the number of workers (the one about [frames_per_batch]
    when [total_frames] passed its own check); in both cases nothing has
    been launched.  When both counts are multiples of the number of
    workers, whatever construction raises is neither of these two
    errors. *)
Theorem init_frame_checks sys a w :
  nworkers a <> 0 ->
  (Args.total_frames a `mod` nworkers a <> 0 ->
     __init__ sys a w =
       (inl (RuntimeError (CannotDispatchTotal (Args.total_frames a) (nworkers a))), w)) /\
  (Args.frames_per_batch a `mod` nworkers a <> 0 ->
     exists e, __init__ sys a w = (inl e, w) /\
       is_configuration_error e = true /\ is_frame_count_error e = true /\
       (Args.total_frames a `mod` nworkers a = 0 ->
          e = RuntimeError (CannotDispatchBatch (Args.frames_per_batch a) (nworkers a)))) /\
  (Args.total_frames a `mod` nworkers a = 0 ->
   Args.frames_per_batch a `mod` nworkers a = 0 ->
     forall e, (__init__ sys a w).1 = inl e -> is_frame_count_error e = false).
Proof.
  intros Hnw. split; [|split].
  - intros Ht. by apply init_total_indivisible.
  - intros Hf. destruct (decide (Args.total_frames a `mod` nworkers a = 0)) as [Ht|Ht].
    + eexists. split; [by apply init_batch_indivisible|]. done.
    + eexists. split; [by apply init_total_indivisible|]. done.
  - intros Ht Hf e He.
    destruct (__init__ sys a w) as [r w'] eqn:E. simpl in He. subst r.
    rewrite init_frames_ok in E by done.
    apply bind_inl in E as [H|(s1 & w1 & _ & H)].
    + apply init_workers_raises in H. by destruct e.
    + apply make_container_raises in H. by destruct e.
Qed.

Lemma init_frame_checks_witness :
  (__init__ Example.no_submitit Example.total_indivisible world0).1 =
    inl (RuntimeError (CannotDispatchTotal 100 3)) /\
  (exists e, (__init__ Example.no_submitit Example.batch_indivisible world0).1 = inl e /\
     e = RuntimeError (CannotDispatchBatch 15 4)) /\
  (forall e, (__init__ Example.no_submitit Example.two_workers world0).1 = inl e ->
     is_frame_count_error e = false).
Proof.
  split; [|split].
  - assert (nworkers Example.total_indivisible <> 0) as Hnw by (vm_compute; discriminate).
    destruct (init_frame_checks Example.no_submitit Example.total_indivisible world0 Hnw)
      as (H & _ & _).
    rewrite H; [reflexivity|vm_compute; discriminate].
  - assert (nworkers Example.batch_indivisible <> 0) as Hnw by (vm_compute; discriminate).
    destruct (init_frame_checks Example.no_submitit Example.batch_indivisible world0 Hnw)
      as (_ & H & _).
    destruct H as (e & He & _ & _ & Hb); [vm_compute; discriminate|].
    exists e. rewrite He. split; [reflexivity|]. apply Hb. reflexivity.
  - assert (nworkers Example.two_workers <> 0) as Hnw by (vm_compute; discriminate).
    destruct (init_frame_checks Example.no_submitit Example.two_workers world0 Hnw)
      as (_ & _ & H).
    apply H; reflexivity.
Defined.

(** ** The unsupported operations *)

(** C4.  [update_policy_weights_], [set_seed], [state_dict] and
    [load_state_dict] raise [NotImplementedError] for every argument and
    in every state, and leave the coordinator and the world as they
    were. *)
Theorem unsupported_operations (st : t * world) :
  (forall worker_rank, update_policy_weights_ worker_rank st = (inl NotImplementedError, st)) /\
  (forall seed static_seed, set_seed seed static_seed st = (inl NotImplementedError, st)) /\
  state_dict st = (inl NotImplementedError, st) /\
  (forall sd, load_state_dict sd st = (inl NotImplementedError, st)).
Proof. repeat split. Qed.

(** ** The cluster-job launcher without its library *)



(** ** What a round leaves alone *)

Section Preserves.
Context {S : Type} (I : S -> Prop).








End Preserves.

Section PreservesSelf.
Context (I : t -> Prop).
Hypothesis write_view_keeps : forall v d s, I s -> I (write_view v d s).







End PreservesSelf.


(** ** The constructed coordinator *)

Lemma init_ready sys a w s w' :
  __init__ sys a w = (inr s, w') ->
  exists e0 out,
    Args.create_env_fn a !! 0%nat = Some e0 /\
    out = container e0 (Args.policy a) (Args.storing_device a) (nworkers a)
            (Args.frames_per_batch a `div` nworkers a) /\
    ready s out /\
    num_workers s = nworkers a /\
    total_frames s = Args.total_frames a /\
    update_interval s = Args.update_interval a /\
    policy_weights s = weights_of (Args.policy a) /\
    _batches_since_weight_update s = replicate (length (Args.create_env_fn a)) 0.
Proof.
  intros H.
  apply init_inr in H as (e0 & js & pre & Hnw & _ & _ & _ & _ & He0 & -> & _).
  do 2 eexists. split; [exact He0|]. split; [reflexivity|].
  split; [|split; [done|split; [done|split; [done|split; [done|]]]]].
  - unfold ready, container. simpl. rewrite length_replicate.
    fold (nworkers a). split; [lia|done].
  - simpl. erewrite const_fmap by done. rewrite length_seqZ.
    by rewrite Nat2Z.id.
Qed.


(** ** The frame budget *)



(** ** The order of construction *)

(** C7, as the code has it.  In a successful construction the workers are
    launched first, one launch per rank in rank order, then the coordinator
    joins the process group of [num_workers + 1] members, and only then is
    the shape determined by the throwaway rollout on the first environment
    constructor; before the launches there is nothing but the set-up of the
    address and of the executor. *)
Theorem launch_then_rendezvous_then_probe sys a w0 s w :
  __init__ sys a w0 = (inr s, w) ->
  exists e0 pre,
    Args.create_env_fn a !! 0%nat = Some e0 /\
    Forall (fun e => is_setup e = true) pre /\
    log w = log w0 ++ pre
              ++ (launch_event (Args.launcher a) <$> seqZ 0 (nworkers a))
              ++ [EvInitProcessGroup 0 (nworkers a + 1);
                  EvProbeCreate e0 (Args.frames_per_batch a `div` nworkers a)
                    (Args.total_frames a);
                  EvLock; EvProbeShutdown].
Proof.
  intros H.
  apply init_inr in H
    as (e0 & js & pre & _ & _ & _ & _ & _ & He0 & _ & _ & _ & Hpre & Hlog & _).
  by exists e0, pre.
Qed.

Lemma launch_then_rendezvous_then_probe_witness :
  exists s w pre,
    __init__ Example.no_submitit Example.two_workers world0 = (inr s, w) /\
    Forall (fun e => is_setup e = true) pre /\
    log w = pre ++ [EvProcStart 1; EvProcStart 2;
                    EvInitProcessGroup 0 3;
                    EvProbeCreate Example.env0 2 12; EvLock; EvProbeShutdown].
Proof.
  destruct (__init__ Example.no_submitit Example.two_workers world0) as [[e|s] w] eqn:E;
    [vm_compute in E; discriminate|].
  destruct (launch_then_rendezvous_then_probe _ _ _ _ _ E) as (e0 & pre & He0 & Hpre & Hlog).
  inversion He0; subst e0.
  exists s, w, pre. split; [reflexivity|]. split; [exact Hpre|]. exact Hlog.
Defined.

(** C7 as stated fails: in the construction of [Example.two_workers] no
    probe event comes before a launch, while launches and the rendezvous
    do come before the probe. *)
Lemma probe_does_not_precede_launch :
  exists s w,
    __init__ Example.no_submitit Example.two_workers world0 = (inr s, w) /\
    occurs_before is_probe is_launch (log w) = false /\
    occurs_before is_launch is_probe (log w) = true /\
    occurs_before is_rendezvous is_probe (log w) = true.
Proof.
  destruct (__init__ Example.no_submitit Example.two_workers world0) as [[e|s] w] eqn:E;
    [vm_compute in E; discriminate|].
  exists s, w. split; [reflexivity|].
  vm_compute in E. inversion E. vm_compute. done.
Qed.

(** ** The staleness counters *)




(** ** The layout of the output buffer *)







(** ** Shutdown *)

(** C5, as the code has it.  [shutdown] may be called any number of times:
    every call returns normally and changes nothing, so a worker that was
    alive before the calls is alive after them, and the process group and
    the output buffer are what they were. *)
Theorem shutdown_changes_nothing (n : nat) (st : t * world) :
  times n shutdown st = (inr tt, st).
Proof.
  induction n as [|n IH]; simpl; [reflexivity|].
  erewrite bind_step by reflexivity. exact IH.
Qed.

(** C5 as stated fails: after two calls of [shutdown] on the coordinator
    of [Example.two_workers], both workers are alive, the process group is
    still there and so is the output buffer. *)
Lemma shutdown_leaves_workers_alive :
  exists s w s' w',
    __init__ Example.no_submitit Example.two_workers world0 = (inr s, w) /\
    times 2 shutdown (s, w) = (inr tt, (s', w')) /\
    length (jobs s') = 2%nat /\
    forallb (is_alive w') (jobs s') = true /\
    process_group w' = Some 3 /\
    is_Some (_tensordict_out s').
Proof.
  destruct (__init__ Example.no_submitit Example.two_workers world0) as [[e|s] w] eqn:E;
    [vm_compute in E; discriminate|].
  exists s, w, s, w. split; [reflexivity|]. split; [reflexivity|].
  vm_compute in E. inversion E; subst; clear E.
  split; [reflexivity|]. split; [vm_compute; reflexivity|]. split; [reflexivity|].
  eexists. reflexivity.
Qed.

(** ** The worker runtime *)

(** A single-environment collector asked for a number of sub-environments
    other than one: the node stops right after publishing the address. *)
Lemma node_single_env_error a c :
  Worker.collector_class a = Cls c -> is_sync_subclass c = true ->
  Worker.num_workers a <> 1 ->
  Worker.run a =
    (inl (RuntimeError SingleEnvOnly),
     [Worker.WEnviron "MASTER_ADDR" (inl (Worker.rank0_ip a));
      Worker.WEnviron "MASTER_PORT" (inr (Worker.tcpport a))]).
Proof.
  intros Hc Hs Hn. unfold Worker.run, Worker._distributed_init_collection_node.
  erewrite bind_step by reflexivity.
  erewrite bind_step by reflexivity.
  rewrite Hc. unfold issubclass_SyncDataCollector.
  erewrite bind_step by reflexivity.
  rewrite Hs. apply Z.eqb_neq in Hn. simpl negb. rewrite Hn. reflexivity.
Qed.

Lemma loop_body_raises a keys idata frames :
  raises_only (fun e => e = ZeroDivisionError) (Worker.loop_body a keys idata frames).
Proof.
  unfold Worker.loop_body. destruct idata as [i n].
  raises; try done; apply raises_only_modify.
Qed.

Lemma node_single_env_ok a c :
  Worker.collector_class a = Cls c ->
  (is_sync_subclass c = true -> Worker.num_workers a = 1) ->
  raises_only (fun e => e = ZeroDivisionError) (Worker._distributed_init_collection_node a).
Proof.
  intros Hc Hn. unfold Worker._distributed_init_collection_node.
  rewrite Hc. unfold issubclass_SyncDataCollector.
  apply raises_only_bind; [apply raises_only_modify|intros _].
  apply raises_only_bind; [apply raises_only_modify|intros _].
  apply raises_only_bind_dep; [|apply raises_only_ret].
  intros s b s1 Hb. inversion Hb; subst; clear Hb.
  destruct (is_sync_subclass c) eqn:Es; simpl negb; cbv iota.
  - rewrite Hn by done. change (negb (1 =? 1)) with false. cbv iota.
    raises; try apply raises_only_modify. apply loop_body_raises.
  - raises; try apply raises_only_modify. apply loop_body_raises.
Qed.

(** C6, as the code has it.  The check is made by the worker: a node asked
    to run the single-environment collector (or a class derived from it)
    with a number of sub-environments other than one, in particular with
    more than one, fails with the configuration error "SyncDataCollector
    and subclasses can only support a single environment." before it
    creates its collector and before it joins the process group; with
    exactly one sub-environment the node does not raise this error.  The
    constructor of the coordinator never raises it. *)
Theorem single_env_check_in_worker :
  (forall a c,
     Worker.collector_class a = Cls c -> is_sync_subclass c = true ->
     (Worker.num_workers a <> 1 ->
        Worker.run a =
          (inl (RuntimeError SingleEnvOnly),
           [Worker.WEnviron "MASTER_ADDR" (inl (Worker.rank0_ip a));
            Worker.WEnviron "MASTER_PORT" (inr (Worker.tcpport a))])) /\
     (Worker.num_workers a = 1 ->
        (Worker.run a).1 <> inl (RuntimeError SingleEnvOnly))) /\
  (forall sys args w, (__init__ sys args w).1 <> inl (RuntimeError SingleEnvOnly)).
Proof.
  split.
  - intros a c Hc Hs. split.
    + by apply (node_single_env_error a c).
    + intros Hn He. unfold Worker.run in He.
      destruct (Worker._distributed_init_collection_node a []) as [r tr] eqn:E.
      simpl in He. subst r.
      pose proof (node_single_env_ok a c Hc (fun _ => Hn) _ _ _ E). discriminate.
  - intros sys args w He.
    destruct (__init__ sys args w) as [r w'] eqn:E. simpl in He. subst r.
    apply init_raises in E as [E|[E|E]]; [discriminate|discriminate|exact E].
Qed.

Lemma single_env_check_in_worker_witness :
  Worker.run (Example.node 2) =
    (inl (RuntimeError SingleEnvOnly),
     [Worker.WEnviron "MASTER_ADDR" (inl "10.0.0.1");
      Worker.WEnviron "MASTER_PORT" (inr 10003)]) /\
  (Worker.run (Example.node 1)).1 <> inl (RuntimeError SingleEnvOnly).
Proof.
  destruct single_env_check_in_worker as [Hw _]. split.
  - apply (Hw (Example.node 2) SyncDataCollector eq_refl eq_refl). discriminate.
  - apply (Hw (Example.node 1) SyncDataCollector eq_refl eq_refl). reflexivity.
Defined.

(** C6 as stated fails: with the single-environment strategy and two
    sub-environments, construction does not end with a configuration
    error.  Both workers have died of the configuration error in their own
    processes, and the coordinator is left with a rendezvous that cannot
    complete. *)
Lemma single_env_error_stays_in_worker :
  exists e w,
    __init__ Example.no_submitit Example.single_with_two world0 = (inl e, w) /\
    is_configuration_error e = false /\
    procs w !! 1 = Some (Crashed (RuntimeError SingleEnvOnly)) /\
    procs w !! 2 = Some (Crashed (RuntimeError SingleEnvOnly)).
Proof.
  exists RendezvousTimeout. eexists. split; [vm_compute; reflexivity|].
  split; [reflexivity|]. split; reflexivity.
Qed.

(** ** The trace of a node *)




(** ** The broadcast schedule seen from both sides *)




(** *** The coordinator *)






(** *** The worker *)







(** The broadcasts through round [N] are those through round [N - 1],
    followed by the parameters when [N] is a multiple of the update
    interval and by nothing otherwise. *)
Lemma broadcasts_through_last ui keys N :
  0 <= N ->
  broadcasts_through ui keys N =
  broadcasts_through ui keys (N - 1) ++ (if N `mod` ui =? 0 then keys else []).
Proof.
  intros HN. unfold broadcasts_through.
  replace (N + 1) with (Z.of_nat (S (Z.to_nat N))) by lia.
  rewrite seqZ_S, fmap_app, concat_app. simpl.
  rewrite app_nil_r, Z2Nat.id by lia.
  replace (N - 1 + 1) with N by lia. reflexivity.
Qed.



(** * Further properties of the constructor *)

(** ** Degenerate configurations *)

(** With an empty list of environment constructors the first division of
    [__init__] is a division by zero: construction raises
    [ZeroDivisionError] and has done nothing. *)
Theorem init_empty_env_list sys a w :
  Args.create_env_fn a = [] ->
  __init__ sys a w = (inl ZeroDivisionError, w).
Proof. intros H. apply init_no_workers. unfold nworkers. by rewrite H. Qed.

Lemma init_empty_env_list_witness :
  __init__ Example.no_submitit Example2.no_workers world0 = (inl ZeroDivisionError, world0).
Proof. apply init_empty_env_list. reflexivity. Defined.

Lemma seqZ_0_pos n : 0 < n -> seqZ 0 n = 0 :: seqZ 1 (n - 1).
Proof. intros Hn. rewrite seqZ_cons by lia. do 2 f_equal; lia. Qed.

(** With a launcher that is neither "submitit" nor "mp", and frame counts
    that pass their checks, the launch loop fails in its first turn, where
    [job] is not bound: construction raises [UnboundLocalError] after
    publishing the address, with no worker launched. *)
Theorem init_unknown_launcher sys a w :
  nworkers a <> 0 ->
  Args.total_frames a `mod` nworkers a = 0 ->
  Args.frames_per_batch a `mod` nworkers a = 0 ->
  Args.launcher a <> "submitit" -> Args.launcher a <> "mp" ->
  __init__ sys a w =
    (inl (UnboundLocalError "job"),
     logged w [EvEnviron "MASTER_ADDR" (inl (host_ip sys));
               EvEnviron "MASTER_PORT" (inr (port_of sys a))]).
Proof.
  intros Hnw Ht Hf Hs Hm. rewrite init_frames_ok by done.
  apply bind_fail. unfold _init_workers.
  erewrite bind_step by reflexivity.
  erewrite bind_step by reflexivity.
  cbn [launcher set_jobs set_IPAddr attributes num_workers].
  apply String.eqb_neq in Hs, Hm. rewrite Hs.
  erewrite bind_step by reflexivity.
  fold (nworkers a). rewrite seqZ_0_pos by (unfold nworkers in *; lia).
  cbn [for_]. apply bind_fail. apply bind_fail.
  unfold launch_body. apply bind_fail.
  cbn [launcher set_jobs set_IPAddr attributes]. rewrite Hs, Hm.
  unfold raise, logged, port_of. simpl. rewrite <- !app_assoc.
  destruct (Args.tcp_port a), (environ_TCP_PORT sys); reflexivity.
Qed.

Lemma init_unknown_launcher_witness :
  __init__ Example.no_submitit Example2.odd_launcher world0 =
    (inl (UnboundLocalError "job"),
     logged world0 [EvEnviron "MASTER_ADDR" (inl "10.0.0.1");
                    EvEnviron "MASTER_PORT" (inr 10003)]).
Proof.
  apply (init_unknown_launcher Example.no_submitit Example2.odd_launcher world0);
    (reflexivity || (vm_compute; discriminate)).
Defined.

(** ** The worker pool *)

Lemma node_args_for_spec self i w :
  node_args_for self i w =
    match env_constructors self !! Z.to_nat i, collector_kwargs self !! Z.to_nat i with
    | Some e, Some kw => (inr (args_for self i e kw), w)
    | _, _ => (inl IndexError, w)
    end.
Proof.
  unfold node_args_for, index.
  destruct (env_constructors self !! Z.to_nat i); [|reflexivity].
  destruct (collector_kwargs self !! Z.to_nat i); reflexivity.
Qed.

Lemma launch_body_job i self w self' w' :
  launch_body i self w = (inr self', w') ->
  exists j, self' = set_jobs (jobs self ++ [j]) self /\ job_for self i j.
Proof.
  unfold launch_body. intros H.
  apply bind_inr in H as (j & w1 & Hj & H). inversion H; subst; clear H.
  exists j. split; [done|]. unfold job_for.
  destruct (String.eqb_spec (launcher self) "submitit") as [Hl|Hl].
  - unfold _init_worker_dist_submitit in Hj.
    apply bind_inr in Hj as (a & w2 & Ha & Hj). rewrite node_args_for_spec in Ha.
    destruct (env_constructors self !! Z.to_nat i) as [e|]; [|discriminate].
    destruct (collector_kwargs self !! Z.to_nat i) as [kw|]; [|discriminate].
    inversion Ha; subst; clear Ha. inversion Hj; subst; clear Hj. simpl.
    split; [done|]. split; [done|]. by exists e, kw.
  - destruct (String.eqb_spec (launcher self) "mp") as [Hm|Hm]; [|discriminate].
    unfold _init_worker_dist_mp in Hj.
    apply bind_inr in Hj as (a & w2 & Ha & Hj). rewrite node_args_for_spec in Ha.
    destruct (env_constructors self !! Z.to_nat i) as [e|]; [|discriminate].
    destruct (collector_kwargs self !! Z.to_nat i) as [kw|]; [|discriminate].
    inversion Ha; subst; clear Ha. inversion Hj; subst; clear Hj. simpl.
    split; [done|]. split; [done|]. by exists e, kw.
Qed.

Lemma launch_loop_jobs xs : forall self w self' w',
  for_ xs launch_body self w = (inr self', w') ->
  exists js, jobs self' = jobs self ++ js /\ Forall2 (job_for self) xs js.
Proof.
  induction xs as [|x xs IH]; intros self w self' w' H; simpl in H.
  - inversion H; subst. exists []. by rewrite app_nil_r.
  - apply bind_inr in H as (s1 & w1 & H1 & H).
    apply launch_body_job in H1 as (j & -> & Hj).
    apply IH in H as (js & Hjobs & Hjs).
    exists (j :: js). split.
    + rewrite Hjobs. simpl. by rewrite <- app_assoc.
    + constructor; [done|]. eapply Forall2_impl; [exact Hjs|]. by intros ? ?.
Qed.

(** The jobs of a constructed coordinator, one per environment
    constructor and in the same order. *)
Lemma init_jobs sys a w s w' :
  __init__ sys a w = (inr s, w') ->
  Forall2 (job_for s) (seqZ 0 (nworkers a)) (jobs s) /\
  IPAddr s = Some (host_ip sys) /\ tcp_port s = port_of sys a /\
  env_constructors s = Args.create_env_fn a /\
  launcher s = Args.launcher a /\
  (forall i, collector_kwargs s !! i = kwargs_of a i).
Proof.
  intros H. pose proof (init_inr_frames _ _ _ _ _ H) as (Hnw & Ht & Hf).
  rewrite init_frames_ok in H by done.
  apply bind_inr in H as (s1 & w1 & Hw & Hc).
  apply make_container_inr in Hc as (e0 & _ & _ & _ & -> & _).
  unfold _init_workers in Hw.
  erewrite bind_step in Hw by reflexivity.
  erewrite bind_step in Hw by reflexivity.
  apply bind_inr in Hw as ([] & w2 & _ & Hw).
  apply bind_inr in Hw as (s2 & w3 & Hloop & Hw).
  apply bind_inr in Hw as ([] & w4 & _ & Hw). inversion Hw; subst; clear Hw.
  pose proof Hloop as Hloop'.
  apply launch_loop_inr in Hloop' as (js & -> & _).
  apply launch_loop_jobs in Hloop as (js' & Hjobs & Hjs).
  simpl in Hjobs. subst js'. simpl.
  split; [exact Hjs|]. split; [done|]. split.
  { unfold port_of. by destruct (Args.tcp_port a), (environ_TCP_PORT sys). }
  split; [done|]. split; [done|].
  intros i. unfold kwargs_of. destruct (Args.collector_kwargs a); [| |done].
  - rewrite Nat2Z.id. case_decide.
    + by apply lookup_replicate_2.
    + apply lookup_replicate_None. lia.
  - rewrite Nat2Z.id. case_decide.
    + by apply lookup_replicate_2.
    + apply lookup_replicate_None. lia.
Qed.

Lemma Forall2_seqZ_lookup {A} (P : Z -> A -> Prop) n (l : list A) (i : nat) (x : A) :
  Forall2 P (seqZ 0 n) l -> l !! i = Some x -> P (Z.of_nat i) x /\ Z.of_nat i < n.
Proof.
  intros HF Hx.
  destruct (Forall2_lookup_r _ _ _ _ _ HF Hx) as (k & Hk & HP).
  apply lookup_seqZ in Hk as [-> Hlt]. split; [|done].
  by replace (Z.of_nat i) with (0 + Z.of_nat i) by lia.
Qed.

(** Worker [i] of a constructed coordinator has rank [i + 1] in a group
    of [num_workers + 1] members, which is the group the coordinator has
    joined as rank 0; there is one job per environment constructor, and
    every job is alive when construction returns. *)
Theorem pool_ranks sys a w0 s w :
  __init__ sys a w0 = (inr s, w) ->
  job_rank <$> jobs s = seqZ 1 (nworkers a) /\
  length (jobs s) = length (Args.create_env_fn a) /\
  Forall (fun j => Worker.rank (job_args j) = job_rank j /\
                   Worker.world_size (job_args j) = nworkers a + 1 /\
                   is_alive w j = true) (jobs s) /\
  process_group w = Some (nworkers a + 1) /\
  EvInitProcessGroup 0 (nworkers a + 1) ∈ log w.
Proof.
  intros H. pose proof (init_inr _ _ _ _ _ H)
    as (e0 & js & pre & Hnw & _ & _ & _ & _ & _ & Hs & Hranks & Hofs & _ & Hlog & Hpg & Hal & _).
  assert (jobs s = js) as -> by (rewrite Hs; reflexivity).
  assert (job_rank <$> js = seqZ 1 (nworkers a)) as Hr.
  { rewrite Hranks. rewrite <- (fmap_add_seqZ 1 0).
    apply list_fmap_ext. intros _ i _. lia. }
  split; [exact Hr|]. split.
  { apply (f_equal length) in Hr. rewrite length_fmap, length_seqZ in Hr.
    unfold nworkers in Hr. lia. }
  split; [|split; [exact Hpg|]].
  - apply Forall_forall. intros j Hj.
    destruct (proj1 (Forall_forall _ _) Hofs j Hj) as (Hrk & Hws & _).
    split; [done|]. split.
    + rewrite Hws, Hs. reflexivity.
    + apply (proj1 (forallb_forall _ _) Hal), list_elem_of_In, Hj.
  - rewrite Hlog. rewrite !elem_of_app. right. right. right. left.
Qed.

Lemma pool_ranks_witness :
  exists s w,
    __init__ Example.no_submitit Example.two_workers world0 = (inr s, w) /\
    job_rank <$> jobs s = [1; 2] /\ process_group w = Some 3.
Proof.
  destruct (__init__ Example.no_submitit Example.two_workers world0) as [[e|s] w] eqn:E;
    [vm_compute in E; discriminate|].
  destruct (pool_ranks _ _ _ _ _ E) as (Hr & _ & _ & Hpg & _).
  exists s, w. split; [reflexivity|]. split; [exact Hr|exact Hpg].
Defined.

(** Worker [i] of a constructed coordinator runs environment constructor
    [create_env_fn[i]], wrapped in a [CloudpickleWrapper] unless it is an
    environment instance, with its own entry of [collector_kwargs] (or
    the one dictionary given for all), and it is handed the address and
    the port the coordinator has published. *)
Theorem worker_gets_its_environment sys a w0 s w (i : nat) e :
  __init__ sys a w0 = (inr s, w) ->
  Args.create_env_fn a !! i = Some e ->
  exists j,
    jobs s !! i = Some j /\
    job_rank j = Z.of_nat i + 1 /\
    job_launcher j = Args.launcher a /\
    Worker.env_make_arg (job_args j) =
      (if is_env_instance e then Bare e else CloudpickleWrapper e) /\
    kwargs_of a i = Some (Worker.collector_kwargs (job_args j)) /\
    Worker.rank0_ip (job_args j) = host_ip sys /\
    Worker.tcpport (job_args j) = port_of sys a.
Proof.
  intros H He.
  apply init_jobs in H as (Hjs & Hip & Hport & Henv & Hl & Hkw).
  assert (i < length (jobs s))%nat as Hi.
  { rewrite <- (Forall2_length _ _ _ Hjs), length_seqZ.
    apply lookup_lt_Some in He. unfold nworkers. lia. }
  apply lookup_lt_is_Some in Hi as [j Hj]. exists j. split; [done|].
  destruct (Forall2_seqZ_lookup _ _ _ _ _ Hjs Hj)
    as ((Hr & Hjl & e' & kw & He' & Hkw' & Hargs) & _).
  rewrite Nat2Z.id in He', Hkw'. rewrite Henv, He in He'. inversion He'; subst e'.
  rewrite Hargs. simpl. rewrite Hip, Hport, <- Hkw, Hkw'.
  split; [done|]. split; [congruence|]. done.
Qed.

Lemma worker_gets_its_environment_witness :
  exists s w j,
    __init__ Example.no_submitit Example.two_workers world0 = (inr s, w) /\
    jobs s !! 1%nat = Some j /\ job_rank j = 2 /\
    Worker.env_make_arg (job_args j) = Bare Example.env1 /\
    Worker.tcpport (job_args j) = 10003.
Proof.
  destruct (__init__ Example.no_submitit Example.two_workers world0) as [[e|s] w] eqn:E;
    [vm_compute in E; discriminate|].
  destruct (worker_gets_its_environment _ _ _ _ _ 1%nat Example.env1 E eq_refl)
    as (j & Hj & Hr & _ & Henv & _ & _ & Hport).
  exists s, w, j. split; [reflexivity|]. split; [exact Hj|]. split; [exact Hr|].
  split; [exact Henv|exact Hport].
Defined.

(** The frame budget is split without loss: the quota and the batch size
    handed to every worker, times the number of workers, are
    [total_frames] and [frames_per_batch]. *)
Theorem budget_split sys a w0 s w :
  __init__ sys a w0 = (inr s, w) ->
  Forall (fun j =>
            Worker.total_frames (job_args j) * nworkers a = Args.total_frames a /\
            Worker.frames_per_batch (job_args j) * nworkers a = Args.frames_per_batch a /\
            Worker.update_interval (job_args j) = Args.update_interval a)
         (jobs s).
Proof.
  intros H. pose proof (init_inr _ _ _ _ _ H)
    as (e0 & js & pre & Hnw & Ht & Hf & _ & _ & _ & Hs & _ & Hofs & _).
  assert (jobs s = js) as -> by (rewrite Hs; reflexivity).
  eapply Forall_impl; [exact Hofs|]. intros j (_ & _ & _ & _ & _ & Hfpb & Hui & Htot).
  rewrite Hfpb, Hui, Htot, Hs. simpl.
  pose proof (Z.div_mod (Args.total_frames a) (nworkers a)).
  pose proof (Z.div_mod (Args.frames_per_batch a) (nworkers a)).
  split; [lia|]. split; [lia|done].
Qed.

Lemma budget_split_witness :
  exists s w,
    __init__ Example.no_submitit Example.two_workers world0 = (inr s, w) /\
    Forall (fun j => Worker.total_frames (job_args j) * 2 = 12 /\
                     Worker.frames_per_batch (job_args j) * 2 = 4) (jobs s).
Proof.
  destruct (__init__ Example.no_submitit Example.two_workers world0) as [[e|s] w] eqn:E;
    [vm_compute in E; discriminate|].
  exists s, w. split; [reflexivity|].
  eapply Forall_impl; [exact (budget_split _ _ _ _ _ E)|].
  intros j (H1 & H2 & _). split; [exact H1|exact H2].
Defined.

(** ** A construction that fails half-way *)

Lemma for_app {S A X} (l1 l2 : list X) (body : X -> A -> M S A) : forall a s,
  for_ (l1 ++ l2) body a s = bind (for_ l1 body a) (for_ l2 body) s.
Proof.
  induction l1 as [|x l1 IH]; intros a s; simpl; [reflexivity|].
  unfold bind. destruct (body x a s) as [[e|a'] s']; [reflexivity|].
  rewrite IH. reflexivity.
Qed.

Lemma launch_body_mp i self w e kw :
  launcher self = "mp" ->
  env_constructors self !! Z.to_nat i = Some e ->
  collector_kwargs self !! Z.to_nat i = Some kw ->
  exists self' w', launch_body i self w = (inr self', w').
Proof.
  intros Hl He Hkw. unfold launch_body. rewrite Hl.
  change ("mp" =? "submitit")%string with false.
  change ("mp" =? "mp")%string with true. cbv iota.
  unfold _init_worker_dist_mp, bind. rewrite node_args_for_spec, He, Hkw.
  simpl. eauto.
Qed.

Lemma launch_loop_mp xs : forall self w,
  launcher self = "mp" ->
  Forall (fun i => is_Some (env_constructors self !! Z.to_nat i) /\
                   is_Some (collector_kwargs self !! Z.to_nat i)) xs ->
  exists self' w', for_ xs launch_body self w = (inr self', w').
Proof.
  induction xs as [|x xs IH]; intros self w Hl Hxs; simpl; [by eexists _, _|].
  apply Forall_cons in Hxs as [[[e He] [kw Hkw]] Hxs].
  destruct (launch_body_mp x self w e kw Hl He Hkw) as (s1 & w1 & H1).
  rewrite (bind_step _ _ _ _ _ H1).
  apply launch_body_job in H1 as (j & -> & _).
  apply IH; done.
Qed.

(** A list of keyword arguments shorter than the list of environment
    constructors, with the "mp" launcher and frame counts that pass their
    checks: construction raises [IndexError] when it gets to the first
    worker without an entry, after it has started one process for every
    entry of the list; these processes are in the process table when the
    exception leaves the constructor, and nothing after the launches has
    happened. *)
Theorem init_short_kwargs sys a w l :
  nworkers a <> 0 ->
  Args.total_frames a `mod` nworkers a = 0 ->
  Args.frames_per_batch a `mod` nworkers a = 0 ->
  Args.launcher a = "mp" ->
  Args.collector_kwargs a = KwList l ->
  (length l < length (Args.create_env_fn a))%nat ->
  exists w',
    __init__ sys a w = (inl IndexError, w') /\
    log w' = log w
               ++ [EvEnviron "MASTER_ADDR" (inl (host_ip sys));
                   EvEnviron "MASTER_PORT" (inr (port_of sys a))]
               ++ (EvProcStart <$> seqZ 1 (Z.of_nat (length l))) /\
    Forall (fun r => is_Some (procs w' !! r)) (seqZ 1 (Z.of_nat (length l))) /\
    process_group w' = process_group w.
Proof.
  intros Hnw Ht Hf Hl Hkw Hlen. rewrite init_frames_ok by done.
  set (self0 := attributes sys a _ _).
  set (self1 := set_jobs [] (set_IPAddr (host_ip sys) self0)).
  set (w1 := logged w [EvEnviron "MASTER_ADDR" (inl (host_ip sys));
                       EvEnviron "MASTER_PORT" (inr (port_of sys a))]).
  set (k := Z.of_nat (length l)).
  assert (forall i, collector_kwargs self1 !! i = l !! i) as Hkws
    by (intros i; simpl; by rewrite Hkw).
  assert (seqZ 0 (num_workers self1) = seqZ 0 k ++ k :: seqZ (k + 1) (nworkers a - k - 1))
    as Hsplit.
  { simpl num_workers. fold (nworkers a).
    replace (nworkers a) with (k + (nworkers a - k)) at 1 by lia.
    rewrite seqZ_app by (unfold nworkers, k; lia). f_equal.
    rewrite seqZ_cons by (unfold nworkers, k; lia).
    replace (0 + k) with k by lia. replace (Z.succ k) with (k + 1) by lia.
    replace (Z.pred (nworkers a - k)) with (nworkers a - k - 1) by lia. reflexivity. }
  destruct (launch_loop_mp (seqZ 0 k) self1 w1 Hl) as (s2 & w2 & Hloop).
  { apply Forall_forall. intros i Hi. apply elem_of_seqZ in Hi.
    split.
    - apply lookup_lt_is_Some. simpl. unfold k in Hi. lia.
    - rewrite Hkws. apply lookup_lt_is_Some. unfold k in Hi. lia. }
  pose proof (launch_loop_inr _ _ _ _ _ Hloop)
    as (js & Hs2 & Hrs & _ & Hlog & Hpg & _ & Hprocs).
  specialize (Hprocs (NoDup_seqZ _ _)).
  assert (launch_body k s2 w2 = (inl IndexError, w2)) as Hfail.
  { unfold launch_body. apply bind_fail.
    assert (launcher s2 = "mp") as -> by (rewrite Hs2; exact Hl).
    change ("mp" =? "submitit")%string with false.
    change ("mp" =? "mp")%string with true. cbv iota.
    unfold _init_worker_dist_mp. apply bind_fail.
    rewrite node_args_for_spec.
    assert (collector_kwargs s2 !! Z.to_nat k = None) as ->.
    { rewrite Hs2. simpl. rewrite Hkw. apply lookup_ge_None. unfold k. lia. }
    by destruct (env_constructors s2 !! Z.to_nat k). }
  exists w2. split.
  { apply bind_fail. unfold _init_workers.
    fold self0.
    assert (emit (EvEnviron "MASTER_PORT" (inr (tcp_port (set_IPAddr (host_ip sys) self0))))
              (logged w [EvEnviron "MASTER_ADDR" (inl (host_ip sys))]) = (inr (), w1)) as Hemit.
    { unfold emit, modify, w1, logged. simpl. rewrite <- app_assoc. unfold port_of.
      by destruct (Args.tcp_port a), (environ_TCP_PORT sys). }
    erewrite bind_step by reflexivity.
    erewrite bind_step by exact Hemit.
    fold self1.
    change (launcher self1) with (Args.launcher a). rewrite Hl.
    change ("mp" =? "submitit")%string with false. cbv iota.
    erewrite bind_step by reflexivity.
    apply bind_fail. rewrite Hsplit, for_app.
    erewrite bind_step by exact Hloop.
    simpl for_. apply bind_fail. exact Hfail. }
  split.
  { rewrite Hlog. unfold w1, logged. cbn [log]. rewrite <- app_assoc. do 2 f_equal.
    unfold launch_event. change (launcher self1) with (Args.launcher a). rewrite Hl.
    change ("mp" =? "submitit")%string with false. cbv iota.
    rewrite <- (fmap_add_seqZ 1 0), <- list_fmap_compose.
    apply list_fmap_ext. intros _ i _. simpl. f_equal. lia. }
  split; [|by rewrite Hpg].
  apply Forall_forall. intros r Hr.
  assert (r ∈ job_rank <$> js) as Hin.
  { rewrite Hrs. apply list_elem_of_fmap. exists (r - 1). split; [lia|].
    apply elem_of_seqZ in Hr. apply elem_of_seqZ. lia. }
  apply list_elem_of_fmap in Hin as (j & -> & Hj).
  rewrite (proj1 (Forall_forall _ _) Hprocs j Hj). eauto.
Qed.

Lemma init_short_kwargs_witness :
  exists w',
    __init__ Example.no_submitit Example2.short_kwargs world0 = (inl IndexError, w') /\
    log w' = [EvEnviron "MASTER_ADDR" (inl "10.0.0.1");
              EvEnviron "MASTER_PORT" (inr 29500);
              EvProcStart 1; EvProcStart 2] /\
    is_Some (procs w' !! 1) /\ is_Some (procs w' !! 2).
Proof.
  destruct (init_short_kwargs Example.no_submitit Example2.short_kwargs world0 [∅; ∅])
    as (w' & H & Hlog & Hprocs & _);
    try reflexivity; try (vm_compute; discriminate); [vm_compute; lia|].
  exists w'. split; [exact H|]. split; [exact Hlog|].
  apply Forall_cons in Hprocs as [H1 Hprocs]. apply Forall_cons in Hprocs as [H2 _].
  split; [exact H1|exact H2].
Defined.

(** * Further properties of the iterator *)

(** With an update interval of zero the first round of the iterator
    fails at [j % self.update_interval]: consuming the iterator raises
    [ZeroDivisionError] before anything is sent, received or yielded. *)
Theorem iterator_zero_interval sys a w0 s w fuel :
  __init__ sys a w0 = (inr s, w) ->
  Args.update_interval a = 0 ->
  (0 < fuel)%nat ->
  iterator fuel (s, w) = (inl ZeroDivisionError, (s, w)).
Proof.
  intros Hinit Hui Hfuel.
  pose proof (init_inr _ _ _ _ _ Hinit) as (_ & _ & _ & _ & _ & _ & _ & Htot & _).
  apply init_ready in Hinit as (e0 & out & _ & _ & _ & _ & Htf & Hu & _).
  destruct fuel as [|fuel]; [lia|]. unfold iterator. simpl consume.
  apply bind_fail. unfold _iterator_dist_next.
  erewrite bind_step by reflexivity. cbn [fst g_total_frames gen_start].
  rewrite Htf. replace (0 <? Args.total_frames a) with true
    by (symmetry; by apply Z.ltb_lt).
  apply bind_fail. unfold pymod. by rewrite Hu, Hui.
Qed.

Lemma iterator_zero_interval_witness :
  exists s w,
    __init__ Example.no_submitit Example2.zero_interval world0 = (inr s, w) /\
    iterator 1 (s, w) = (inl ZeroDivisionError, (s, w)).
Proof.
  destruct (__init__ Example.no_submitit Example2.zero_interval world0) as [[e|s] w] eqn:E;
    [vm_compute in E; discriminate|].
  exists s, w. split; [reflexivity|].
  apply (iterator_zero_interval _ _ _ _ _ 1%nat E); [reflexivity|lia].
Defined.





(** * Further properties of the worker runtime *)






(** ** A node with an update interval of zero *)




(** * The whole run, coordinator and worker side by side *)









(** * When construction succeeds *)







